(** * Fragrance Forecast: a shallow embedding of [script.js]

    The script is one click handler that asks the browser for the position,
    fetches the weather and a place name, asks a text model for a fragrance
    and writes the result into the page.  Everything outside the script (the
    geolocation service, the three HTTP endpoints, [JSON.parse]) is gathered
    in a [World]; the page is a [Document] of elements.  The functions below
    follow the source function by function and keep its names.

    What the model takes as given: every request settles (a promise that
    stays pending leaves the page in its loading state and is not modelled);
    the ten elements the script looks up exist; and a property of a payload
    is either absent or of the type its provider documents (numbers are
    integers or rationals, texts are strings).  What [JSON.parse] makes of
    the model's text is the exception: it can be [null], or a value that is
    no object at all. *)

From Stdlib Require Import ZArith QArith Qround Qabs Lia Lqa Ascii String.
From stdpp Require Import base decidable option list strings pretty gmap.

Local Open Scope string_scope.
Local Open Scope Z_scope.

#[local] Set Warnings "-clear-no-such-hyp".

(** ** Strings *)

(** The double quote, for the texts of the source that contain it. *)
Definition dquote : string :=
  String (Ascii.Ascii false true false false false true false false) EmptyString.

Definition quoted (s : string) : string := dquote ++ s ++ dquote.

Definition newline : string :=
  String (Ascii.Ascii false true false true false false false false) EmptyString.

(** [lines.join("\n")]: the lines of a template literal. *)
Fixpoint unlines (ls : list string) : string :=
  match ls with
  | [] => EmptyString
  | [l] => l
  | l :: ls => l ++ newline ++ unlines ls
  end.

(** [t.startsWith(s)]. *)
Fixpoint startsWith (t s : string) {struct s} : bool :=
  match s, t with
  | EmptyString, _ => true
  | String c s', String c' t' => Ascii.eqb c c' && startsWith t' s'
  | String _ _, EmptyString => false
  end.

(** [t.includes(s)]: [s] occurs somewhere in [t]. *)
Fixpoint includes (t s : string) : bool :=
  startsWith t s ||
  match t with
  | String _ t' => includes t' s
  | EmptyString => false
  end.

(** ** Values that may be [undefined]

    A property of a parsed payload is either absent ([undefined], [None]) or
    holds a value.  The payload types below give every property the type the
    provider documents for it. *)

(** [ToBoolean] on a string or [undefined]: only the empty string and
    [undefined] are falsy. *)
Definition truthy (v : option string) : bool :=
  match v with
  | Some (String _ _) => true
  | _ => false
  end.

(** [a || b] where both sides are a string or [undefined]. *)
Definition or_else (a b : option string) : option string :=
  if truthy a then a else b.

(** [a || "literal"]: the right-hand side is a string literal. *)
Definition or_literal (a : option string) (b : string) : string :=
  match a with
  | Some (String c s) => String c s
  | _ => b
  end.

(** A value inside a template literal: [undefined] prints as its name. *)
Definition interpolate (v : option string) : string :=
  default "undefined" v.

(** ** Exceptions and settled promises *)

Inductive ErrorName := Error | TypeError | SyntaxError.

Record Exn := throw { name : ErrorName; message : string }.

(** The outcome of awaiting a promise. *)
Inductive Settled (A : Type) :=
  | Fulfilled (a : A)
  | Rejected (e : Exn).
Arguments Fulfilled {A} a.
Arguments Rejected {A} e.

#[global] Instance Settled_ret : MRet Settled := @Fulfilled.
#[global] Instance Settled_bind : MBind Settled := λ A B f p,
  match p with
  | Fulfilled a => f a
  | Rejected e => Rejected e
  end.

(** Reading property [prop] of [undefined] throws; the wording of the message
    is the engine's (V8's is used here). *)
Definition read_of_undefined (prop : string) : Exn :=
  throw TypeError ("Cannot read properties of undefined (reading '" ++ prop ++ "')").

(** [o.prop] where [o] itself may be [undefined]. *)
Definition member {A B} (o : option A) (prop : string) (get : A → B) : Settled B :=
  match o with
  | Some a => Fulfilled (get a)
  | None => Rejected (read_of_undefined prop)
  end.

(** [Promise.all([p, q])]: fulfilled when both are; rejected with the reason
    of whichever promise rejects first.  When both reject, the order in which
    they settle decides, and [second_first] tells it. *)
Definition Promise_all {A B} (second_first : bool) (p : Settled A) (q : Settled B)
  : Settled (A * B) :=
  match p, q with
  | Fulfilled a, Fulfilled b => Fulfilled (a, b)
  | Rejected e, Fulfilled _ => Rejected e
  | Fulfilled _, Rejected e => Rejected e
  | Rejected e1, Rejected e2 => Rejected (if second_first then e2 else e1)
  end.

(** ** The page *)

Record Element := {
  textContent : string;
  classList : gset string;
  disabled : bool
}.

Definition set_textContent (s : string) (e : Element) : Element :=
  {| textContent := s; classList := classList e; disabled := disabled e |}.

(** The [textContent] setter takes a nullable string: [undefined] and [null]
    are written as the empty string. *)
Definition set_textContent_nullable (v : option string) (e : Element) : Element :=
  set_textContent (default EmptyString v) e.

Definition classList_add (c : string) (e : Element) : Element :=
  {| textContent := textContent e; classList := classList e ∪ {[c]};
     disabled := disabled e |}.

Definition classList_remove (c : string) (e : Element) : Element :=
  {| textContent := textContent e; classList := classList e ∖ {[c]};
     disabled := disabled e |}.

Definition set_disabled (b : bool) (e : Element) : Element :=
  {| textContent := textContent e; classList := classList e; disabled := b |}.

(** The style sheet's [hidden] class takes an element off the page. *)
Definition visible (e : Element) : Prop := "hidden" ∉ classList e.

#[global] Instance visible_dec e : Decision (visible e).
Proof. unfold visible. apply _. Defined.

(** The element constants at the top of the script, each bound once by
    [document.getElementById]. *)
Inductive Id :=
  | getForecastBtn | resultsDiv | loadingDiv | loadingMessage | errorBox
  | errorMessage | locationDisplay | weatherDisplay | fragranceRecommendation
  | fragranceReason.

#[global] Instance Id_eq_dec : EqDecision Id.
Proof. solve_decision. Defined.

Definition Document := Id → Element.

(** A write to one element leaves the others as they are. *)
Definition modify (i : Id) (f : Element → Element) (d : Document) : Document :=
  λ j, if decide (j = i) then f (d j) else d j.

(** *** UI update functions *)

Definition showLoading (message : string) (d : Document) : Document :=
  let d := modify loadingMessage (set_textContent message) d in
  let d := modify loadingDiv (classList_remove "hidden") d in
  let d := modify resultsDiv (classList_add "hidden") d in
  let d := modify errorBox (classList_add "hidden") d in
  let d := modify getForecastBtn (set_disabled true) d in
  modify getForecastBtn
    (λ e, classList_add "cursor-not-allowed" (classList_add "opacity-50" e)) d.

Definition hideLoading (d : Document) : Document :=
  let d := modify loadingDiv (classList_add "hidden") d in
  let d := modify getForecastBtn (set_disabled false) d in
  modify getForecastBtn
    (λ e, classList_remove "cursor-not-allowed" (classList_remove "opacity-50" e)) d.

Definition showError (message : string) (d : Document) : Document :=
  let d := modify errorMessage (set_textContent message) d in
  let d := modify errorBox (classList_remove "hidden") d in
  hideLoading d.

(** ** Helper functions *)

(** The object literal of [getWeatherDescription].  Its keys are written as
    numbers in the source; an object stores them under their decimal
    numerals. *)
Definition descriptions : gmap string string :=
  list_to_map [
    ("0", "Clear sky");
    ("1", "Mainly clear");
    ("2", "Partly cloudy");
    ("3", "Overcast");
    ("45", "Fog");
    ("48", "Depositing rime fog");
    ("51", "Light drizzle");
    ("53", "Moderate drizzle");
    ("55", "Dense drizzle");
    ("56", "Light freezing drizzle");
    ("57", "Dense freezing drizzle");
    ("61", "Slight rain");
    ("63", "Moderate rain");
    ("65", "Heavy rain");
    ("66", "Light freezing rain");
    ("67", "Heavy freezing rain");
    ("71", "Slight snow fall");
    ("73", "Moderate snow fall");
    ("75", "Heavy snow fall");
    ("77", "Snow grains");
    ("80", "Slight rain showers");
    ("81", "Moderate rain showers");
    ("82", "Violent rain showers");
    ("85", "Slight snow showers");
    ("86", "Heavy snow showers");
    ("95", "Thunderstorm");
    ("96", "Thunderstorm with slight hail");
    ("99", "Thunderstorm with heavy hail")
  ].

(** [descriptions[code] || "Unknown weather"].  The property key of an
    integer is its decimal numeral ([pretty]); beyond 10^21 the engine writes
    the key in exponent notation, which is no key of the table either. *)
Definition getWeatherDescription (code : Z) : string :=
  or_literal (descriptions !! pretty code) "Unknown weather".

(** [Math.round]: the closest integer, the larger one at a tie.  A finite
    double is a rational number and the operation is exact on it. *)
Definition Math_round (x : Q) : Z := Qfloor (x + (1 # 2)).

(** ** Payloads of the three providers *)

Module OpenMeteo.
Record current_weather := { temperature : Q; weathercode : Z }.
Record data := { current_weather_ : option current_weather }.
End OpenMeteo.

Module Nominatim.
Record address := { city : option string; town : option string }.
Record data := { address_ : option address }.
End Nominatim.

Module Gemini.
Record part := { text : option string }.
Record content := { parts : option (list part) }.
Record candidate := { content_ : option content }.
Record result := { candidates : option (list candidate) }.
End Gemini.

(** ** The world outside the script *)

Record Response (B : Type) := {
  status : Z;
  json : Settled B   (* [response.json()] rejects when the body is no JSON *)
}.
Arguments status {B} r.
Arguments json {B} r.

(** [response.ok]: the status is in the range 200-299. *)
Definition ok {B} (response : Response B) : bool :=
  (200 <=? status response) && (status response <=? 299).

Record GeolocationCoordinates := { latitude : Q; longitude : Q }.
Record GeolocationPosition := { coords : GeolocationCoordinates }.
Record GeolocationPositionError := { code : Z }.

(** The constant carried by every [GeolocationPositionError]. *)
Definition PERMISSION_DENIED : Z := 1.

(** [getCurrentPosition] calls exactly one of its two callbacks. *)
Inductive PositionOutcome :=
  | Located (position : GeolocationPosition)
  | NotLocated (error : GeolocationPositionError).

(** A parsed fragrance object: its properties, by name. *)
Abbreviation Fragrance := (gmap string string).

(** What [JSON.parse] can return: [null], an object, or any other value (a
    number, a string, a boolean, an array), which has none of the properties
    the script reads. *)
Inductive Parsed :=
  | Null
  | Object (o : Fragrance)
  | Other.

(** Reading property [prop] of [null] throws, as of [undefined]. *)
Definition read_of_null (prop : string) : Exn :=
  throw TypeError ("Cannot read properties of null (reading '" ++ prop ++ "')").

(** [v.prop] on a parsed value. *)
Definition property (v : Parsed) (prop : string) : Settled (option string) :=
  match v with
  | Null => Rejected (read_of_null prop)
  | Object o => Fulfilled (o !! prop)
  | Other => Fulfilled None
  end.

Record World := {
  (** [navigator.geolocation]: [None] when the browser has none. *)
  geolocation : option PositionOutcome;
  (** [fetch] on the weather URL built from a latitude and a longitude. *)
  fetch_weather : Q → Q → Settled (Response OpenMeteo.data);
  (** [fetch] on the reverse geocoding URL. *)
  fetch_geocode : Q → Q → Settled (Response Nominatim.data);
  (** [fetch] on the text model's URL; the request varies in its prompt only. *)
  fetch_ai : string → Settled (Response Gemini.result);
  (** [JSON.parse]: rejects with a [SyntaxError] on text that is no JSON. *)
  JSON_parse : string → Settled Parsed;
  (** Whether the geocoding promise settles before the weather promise. *)
  geocode_settles_first : bool
}.

(** ** API logic *)

Record WeatherReading := { temperature : Z; description : string }.

Definition getWeatherData (w : World) (latitude longitude : Q) : Settled WeatherReading :=
  response ← fetch_weather w latitude longitude;
  if negb (ok response) then
    Rejected (throw Error "Could not fetch weather data.")
  else
    data ← json response;
    t ← member (OpenMeteo.current_weather_ data) "temperature" OpenMeteo.temperature;
    c ← member (OpenMeteo.current_weather_ data) "weathercode" OpenMeteo.weathercode;
    Fulfilled {| temperature := Math_round t;
                 description := getWeatherDescription c |}.

(** In [data.address.city || data.address.town || "your location"] the read
    of [town] is skipped when [city] is truthy; it cannot throw once the read
    of [city] went through, so both reads are made here. *)
Definition getCityName (w : World) (latitude longitude : Q) : Settled string :=
  response ← fetch_geocode w latitude longitude;
  if negb (ok response) then
    Fulfilled "your location"
  else
    data ← json response;
    city ← member (Nominatim.address_ data) "city" Nominatim.city;
    town ← member (Nominatim.address_ data) "town" Nominatim.town;
    Fulfilled (or_literal (or_else city town) "your location").

(** The template literal of the prompt, line by line. *)
Definition prompt (weatherData : WeatherReading) : string :=
  unlines [
    EmptyString;
    "        Based on the following weather conditions, recommend a fragrance profile.";
    "        Weather: " ++ description weatherData;
    "        Temperature: " ++ pretty (temperature weatherData) ++ "°C";
    EmptyString;
    "        Provide your response in a JSON object with the following structure:";
    "        {";
    "          " ++ quoted "mood" ++ ": " ++ quoted "A short description of the mood or feeling" ++ ",";
    "          " ++ quoted "atmosphere" ++ ": " ++ quoted "A description of the overall atmosphere" ++ ",";
    "          " ++ quoted "scents" ++ ": " ++ quoted "Key scent notes, e.g., 'Citrus & Bergamot'" ++ ",";
    "          " ++ quoted "reason" ++ ": " ++ quoted "A brief explanation for the recommendation.";
    "        }";
    "    "
  ].

(** [xs[0]] on an array: [undefined] when the array is empty. *)
Definition first {A} (xs : list A) : option A := head xs.

(** [result.candidates[0].content.parts[0].text], read left to right; each
    step throws when the value before it is [undefined]. *)
Definition jsonText (candidates : list Gemini.candidate) : Settled (option string) :=
  content ← member (first candidates) "content" Gemini.content_;
  parts ← member content "parts" Gemini.parts;
  part0 ← member parts "0" first;
  member part0 "text" Gemini.text.

Definition getFragranceFromAI (w : World) (weatherData : WeatherReading) : Settled Parsed :=
  response ← fetch_ai w (prompt weatherData);
  if negb (ok response) then
    Rejected (throw Error ("AI API request failed with status " ++ pretty (status response)))
  else
    result ← json response;
    match Gemini.candidates result with
    | Some (c :: cs) =>
        text ← jsonText (c :: cs);
        JSON_parse w (interpolate text)
    | _ => Rejected (throw Error "Invalid response structure from AI API.")
    end.

(** ** The final UI update *)

(** The object handed to [updateUI]. *)
Record Forecast := { weather : WeatherReading; fragrance : Parsed; city : string }.

(** What [updateUI] leaves behind: the page as far as it was written, and the
    exception that stopped it, if one did. *)
Record Update := { after : Document; thrown : option Exn }.

(** The statements of [updateUI] in their order.  The first read of
    [data.fragrance] throws when the fragrance is [null]; the two texts
    written before it stay written and the results stay as they were. *)
Definition updateUI (data : Forecast) (d : Document) : Update :=
  let d := modify locationDisplay
             (set_textContent ("Forecast for " ++ city data)) d in
  let d := modify weatherDisplay
             (set_textContent (description (weather data) ++ ", "
                               ++ pretty (temperature (weather data)) ++ "°C")) d in
  match property (fragrance data) "scents" with
  | Rejected error => {| after := d; thrown := Some error |}
  | Fulfilled scents =>
      let d := modify fragranceRecommendation (set_textContent_nullable scents) d in
      match property (fragrance data) "mood" with
      | Rejected error => {| after := d; thrown := Some error |}
      | Fulfilled mood =>
          match property (fragrance data) "reason" with
          | Rejected error => {| after := d; thrown := Some error |}
          | Fulfilled reason =>
              let d := modify fragranceReason
                         (set_textContent ("Mood: " ++ interpolate mood ++ ". "
                                           ++ interpolate reason)) d in
              {| after := modify resultsDiv (classList_remove "hidden") d;
                 thrown := None |}
          end
      end
  end.

(** ** Main application flow *)

(** What one click leaves behind: the page after each UI update, in order,
    and what was written to the console. *)
Record Run := { frames : list Document; console : list Exn }.

(** The [catch] clause. *)
Definition caught (error : Exn) (d : Document) : Document :=
  showError (or_literal (Some (message error)) "An unknown error occurred.") d.

(** The success callback of [getCurrentPosition]. *)
Definition onPosition (w : World) (position : GeolocationPosition) (d : Document) : Run :=
  let latitude := latitude (coords position) in
  let longitude := longitude (coords position) in
  let d1 := showLoading "Fetching weather data..." d in
  match Promise_all (geocode_settles_first w)
          (getWeatherData w latitude longitude)
          (getCityName w latitude longitude) with
  | Rejected error => {| frames := [d1; caught error d1]; console := [error] |}
  | Fulfilled (weather, city) =>
      let d2 := showLoading "Creating your fragrance profile..." d1 in
      match getFragranceFromAI w weather with
      | Rejected error => {| frames := [d1; d2; caught error d2]; console := [error] |}
      | Fulfilled fragrance =>
          let d3 := hideLoading d2 in
          let update :=
            updateUI {| weather := weather; fragrance := fragrance; city := city |} d3 in
          match thrown update with
          | Some error =>
              {| frames := [d1; d2; d3; after update; caught error (after update)];
                 console := [error] |}
          | None => {| frames := [d1; d2; d3; after update]; console := [] |}
          end
      end
  end.

(** The error callback of [getCurrentPosition]. *)
Definition onPositionError (error : GeolocationPositionError) (d : Document) : Run :=
  let message :=
    if decide (code error = PERMISSION_DENIED)
    then "Location access was denied. Please enable it in your browser settings."
    else "Could not get your location. Please allow location access." in
  {| frames := [showError message d]; console := [] |}.

(** The click listener of [getForecastBtn]. *)
Definition onClick (w : World) (d : Document) : Run :=
  match geolocation w with
  | None =>
      {| frames := [showError "Geolocation is not supported by your browser." d];
         console := [] |}
  | Some outcome =>
      let d0 := showLoading "Getting your location..." d in
      let r := match outcome with
               | Located position => onPosition w position d0
               | NotLocated error => onPositionError error d0
               end in
      {| frames := d0 :: frames r; console := console r |}
  end.

(** The page once the click has been handled. *)
Definition final (w : World) (d : Document) : Document :=
  default d (last (frames (onClick w d))).

(** One click after another, each on the page the one before left; the
    frames of all of them. *)
Fixpoint clicks (ws : list World) (d : Document) : list Document :=
  match ws with
  | [] => []
  | w :: ws => frames (onClick w d) ++ clicks ws (final w d)
  end.

(** ** States of the page *)

(** The results are on the page and nothing else is. *)
Definition Done (d : Document) : Prop :=
  visible (d resultsDiv) ∧ ¬ visible (d loadingDiv) ∧ ¬ visible (d errorBox).

(** The error box is on the page and the loading indicator is gone. *)
Definition Failed (d : Document) : Prop :=
  visible (d errorBox) ∧ ¬ visible (d loadingDiv).

(** How many of the loading indicator, the error box and the results are on
    the page. *)
Definition panels_visible (d : Document) : nat :=
  length (filter (λ i, visible (d i)) [loadingDiv; errorBox; resultsDiv]).

Definition exclusive (d : Document) : Prop := (panels_visible d ≤ 1)%nat.

(** ** A reference [JSON.parse]

    Enough of JSON to build concrete worlds: [null], [true], [false] and an
    object whose members are strings.  The general results never look inside
    [JSON_parse]. *)

Module Json.
Definition dquote_char : Ascii.ascii := Ascii.Ascii false true false false false true false false.

Definition is_ws (c : Ascii.ascii) : bool :=
  match Ascii.nat_of_ascii c with
  | 32%nat | 9%nat | 10%nat | 13%nat => true
  | _ => false
  end.

Definition is_control (c : Ascii.ascii) : bool := (Ascii.nat_of_ascii c <? 32)%nat.

Fixpoint skip_ws (s : string) : string :=
  match s with
  | String c s' => if is_ws c then skip_ws s' else s
  | EmptyString => s
  end.

(** The character a two-character escape stands for. *)
Definition unescape (c : Ascii.ascii) : option Ascii.ascii :=
  if Ascii.eqb c dquote_char then Some dquote_char
  else if Ascii.eqb c "\"%char then Some "\"%char
  else if Ascii.eqb c "/"%char then Some "/"%char
  else if Ascii.eqb c "b"%char then Some (Ascii.ascii_of_nat 8)
  else if Ascii.eqb c "f"%char then Some (Ascii.ascii_of_nat 12)
  else if Ascii.eqb c "n"%char then Some (Ascii.ascii_of_nat 10)
  else if Ascii.eqb c "r"%char then Some (Ascii.ascii_of_nat 13)
  else if Ascii.eqb c "t"%char then Some (Ascii.ascii_of_nat 9)
  else None.

(** The rest of a string literal, after its opening quote: the characters
    up to the closing quote, and what follows it. *)
Fixpoint string_body (s : string) : option (string * string) :=
  match s with
  | EmptyString => None
  | String c s' =>
      if Ascii.eqb c dquote_char then Some (EmptyString, s')
      else if Ascii.eqb c "\"%char then
        match s' with
        | String e s'' =>
            c' ← unescape e;
            '(body, rest) ← string_body s'';
            Some (String c' body, rest)
        | EmptyString => None
        end
      else if is_control c then None
      else
        '(body, rest) ← string_body s';
        Some (String c body, rest)
  end.

Definition string_literal (s : string) : option (string * string) :=
  match skip_ws s with
  | String c s' => if Ascii.eqb c dquote_char then string_body s' else None
  | EmptyString => None
  end.

Definition expect (c : Ascii.ascii) (s : string) : option string :=
  match skip_ws s with
  | String c' s' => if Ascii.eqb c c' then Some s' else None
  | EmptyString => None
  end.

(** [key : value], then either a comma and more members or the closing
    brace.  A later member replaces an earlier one of the same name. *)
Fixpoint members (fuel : nat) (s : string) (acc : Fragrance) : option Fragrance :=
  match fuel with
  | O => None
  | S fuel =>
      '(key, s) ← string_literal s;
      s ← expect ":"%char s;
      '(value, s) ← string_literal s;
      let acc := <[key := value]> acc in
      match skip_ws s with
      | String c s' =>
          if Ascii.eqb c ","%char then members fuel s' acc
          else if Ascii.eqb c "}"%char then
            match skip_ws s' with EmptyString => Some acc | _ => None end
          else None
      | EmptyString => None
      end
  end.

Definition object (s : string) : option Fragrance :=
  s' ← expect "{"%char s;
  match skip_ws s' with
  | String c s'' =>
      if Ascii.eqb c "}"%char then
        match skip_ws s'' with EmptyString => Some ∅ | _ => None end
      else members (String.length s') s' ∅
  | EmptyString => None
  end.

(** The text is the word [k], with white space around it at most. *)
Definition keyword (k s : string) : bool :=
  let s := skip_ws s in
  startsWith s k
  && String.eqb (skip_ws (String.substring (String.length k)
                            (String.length s - String.length k) s))
       EmptyString.

Definition parse (s : string) : Settled Parsed :=
  if keyword "null" s then Fulfilled Null
  else if keyword "true" s || keyword "false" s then Fulfilled Other
  else
    match object s with
    | Some o => Fulfilled (Object o)
    | None => Rejected (throw SyntaxError "Unexpected token in JSON")
    end.
End Json.

(** Members of a JSON object text: [{"k":"v",...}]. *)
Fixpoint json_members (kvs : list (string * string)) : string :=
  match kvs with
  | [] => EmptyString
  | [(k, v)] => quoted k ++ ":" ++ quoted v
  | (k, v) :: kvs => quoted k ++ ":" ++ quoted v ++ "," ++ json_members kvs
  end.

Definition json_object (kvs : list (string * string)) : string :=
  "{" ++ json_members kvs ++ "}".

(** * Worlds, pages and predicates of the properties *)

(** ** Predicates *)

(** The WMO codes the table knows. *)
Definition wmo_codes : list Z :=
  [0; 1; 2; 3; 45; 48; 51; 53; 55; 56; 57; 61; 63; 65; 66; 67; 71; 73; 75; 77;
   80; 81; 82; 85; 86; 95; 96; 99].



(** ** The page as loaded *)

(** Modelled from the spec: the page as it is loaded ([index.html] is not
    among the sources).  The three panels are hidden and the button is
    enabled; the texts are left empty. *)
Definition idle_page : Document := λ i,
  {| textContent := EmptyString;
     classList :=
       match i with
       | loadingDiv | errorBox | resultsDiv => {[ "hidden" ]}
       | _ => ∅
       end;
     disabled := false |}.

(** The pages that can come about from the page as loaded: by a call of one
    of the UI update functions, or as a frame of a click. *)
Inductive reachable : Document → Prop :=
  | reach_idle : reachable idle_page
  | reach_showLoading message d : reachable d → reachable (showLoading message d)
  | reach_hideLoading d : reachable d → reachable (hideLoading d)
  | reach_showError message d : reachable d → reachable (showError message d)
  | reach_updateUI data d : reachable d → reachable (after (updateUI data d))
  | reach_click w d page :
      reachable d → page ∈ frames (onClick w d) → reachable page.

(** ** Concrete worlds *)

(** A response with the given status and parsed body. *)
Definition respond {B} (status : Z) (body : B) : Settled (Response B) :=
  Fulfilled {| status := status; json := Fulfilled body |}.

(** A response with the given status and a body that is no JSON. *)
Definition respond_plain {B} (status : Z) : Settled (Response B) :=
  Fulfilled {| status := status;
               json := Rejected (throw SyntaxError "Unexpected end of JSON input") |}.

(** What [fetch] rejects with when the network is down. *)
Definition network_error : Exn := throw TypeError "Failed to fetch".

(** The position (51.5, -0.12). *)
Definition london_position : GeolocationPosition :=
  {| coords := {| latitude := 515 # 10; longitude := - (12 # 100) |} |}.

(** Weather code 61 at 12.3 degrees, and the reading made of it. *)
Definition rain_12_3 : OpenMeteo.data :=
  {| OpenMeteo.current_weather_ :=
       Some {| OpenMeteo.temperature := 123 # 10; OpenMeteo.weathercode := 61 |} |}.

Definition slight_rain_12 : WeatherReading :=
  {| temperature := 12; description := "Slight rain" |}.

(** A geocoding payload with the given city and town. *)
Definition place (city town : option string) : Nominatim.data :=
  {| Nominatim.address_ := Some {| Nominatim.city := city; Nominatim.town := town |} |}.

(** The body of the text model when it answers with the text [t]. *)
Definition generated (t : string) : Gemini.result :=
  {| Gemini.candidates :=
       Some [ {| Gemini.content_ :=
                   Some {| Gemini.parts := Some [ {| Gemini.text := Some t |} ] |} |} ] |}.

(** The model's answer of the end-to-end scenario, as text and as parsed. *)
Definition cozy_text : string :=
  json_object [ ("mood", "Cozy"); ("atmosphere", "Rainy afternoon");
                ("scents", "Amber & Vanilla"); ("reason", "Warm scents suit rain.") ].

Definition cozy : Fragrance :=
  <["reason" := "Warm scents suit rain."]>
    (<["scents" := "Amber & Vanilla"]>
      (<["atmosphere" := "Rainy afternoon"]>
        (<["mood" := "Cozy"]> ∅))).

Definition at_london (latitude longitude : Q) : bool :=
  Qeq_bool latitude (515 # 10) && Qeq_bool longitude (- (12 # 100)).

(** The end-to-end scenario: the providers answer requests for (51.5, -0.12)
    only, and the text model answers the prompt for slight rain at 12
    degrees only. *)
Definition london : World :=
  {| geolocation := Some (Located london_position);
     fetch_weather := λ latitude longitude,
       if at_london latitude longitude then respond 200 rain_12_3
       else Rejected network_error;
     fetch_geocode := λ latitude longitude,
       if at_london latitude longitude then respond 200 (place (Some "London") None)
       else Rejected network_error;
     fetch_ai := λ text,
       if String.eqb text (prompt slight_rain_12) then respond 200 (generated cozy_text)
       else Rejected network_error;
     JSON_parse := Json.parse;
     geocode_settles_first := false |}.

(** A world whose every request has one fixed outcome. *)
Definition scenario
    (position : option PositionOutcome)
    (weather : Settled (Response OpenMeteo.data))
    (geocode : Settled (Response Nominatim.data))
    (ai : Settled (Response Gemini.result)) : World :=
  {| geolocation := position;
     fetch_weather := λ _ _, weather;
     fetch_geocode := λ _ _, geocode;
     fetch_ai := λ _, ai;
     JSON_parse := Json.parse;
     geocode_settles_first := false |}.

(** The end-to-end scenario with another answer from the geocoder. *)
Definition with_geocoder (geocode : Settled (Response Nominatim.data)) : World :=
  scenario (Some (Located london_position))
    (respond 200 rain_12_3) geocode (respond 200 (generated cozy_text)).

(** The geocoder cannot be reached: its [fetch] rejects. *)
Definition geocoder_unreachable : World := with_geocoder (Rejected network_error).



(** The geocoder answers with the given city and town. *)
Definition geocoder_with (city town : option string) : World :=
  with_geocoder (respond 200 (place city town)).

(** The end-to-end scenario with another answer from the text model. *)
Definition with_model (ai : Settled (Response Gemini.result)) : World :=
  scenario (Some (Located london_position))
    (respond 200 rain_12_3) (respond 200 (place (Some "London") None)) ai.

(** The model answers, but its only candidate carries no content (as when a
    safety filter stops the generation). *)
Definition candidate_without_content : World :=
  with_model (respond 200 {| Gemini.candidates := Some [ {| Gemini.content_ := None |} ] |}).

(** The model answers 503. *)
Definition model_unavailable : World := with_model (respond_plain 503).

(** The model answers 200 with an empty list of candidates. *)
Definition model_without_candidates : World :=
  with_model (respond 200 {| Gemini.candidates := Some [] |}).

(** The weather provider answers 500; the geocoder and the model work. *)
Definition weather_unavailable : World :=
  scenario (Some (Located london_position))
    (respond_plain 500) (respond 200 (place (Some "London") None))
    (respond 200 (generated cozy_text)).

(** A browser without geolocation. *)
Definition without_geolocation : World :=
  scenario None (Rejected network_error) (Rejected network_error) (Rejected network_error).

(** The browser reports the given geolocation error. *)
Definition position_error (code : Z) : World :=
  scenario (Some (NotLocated {| code := code |}))
    (Rejected network_error) (Rejected network_error) (Rejected network_error).

(** [updateUI] followed by [showError]. *)
Definition results_then_error : Document :=
  showError "Could not fetch weather data."
    (after (updateUI {| weather := slight_rain_12; fragrance := Object cozy;
                        city := "London" |}
              idle_page)).

(** ** The runs of the click handler *)

(** The four text fields of the results. *)
Definition display_fields : list Id :=
  [locationDisplay; weatherDisplay; fragranceRecommendation; fragranceReason].

(** The button as [showLoading] leaves it: disabled and dimmed. *)
Definition locked (d : Document) : Prop :=
  disabled (d getForecastBtn) = true
  ∧ "opacity-50" ∈ classList (d getForecastBtn)
  ∧ "cursor-not-allowed" ∈ classList (d getForecastBtn).

(** The button as [hideLoading] leaves it: enabled and not dimmed. *)
Definition ready (d : Document) : Prop :=
  disabled (d getForecastBtn) = false
  ∧ ("opacity-50" ∉ classList (d getForecastBtn))
  ∧ ("cursor-not-allowed" ∉ classList (d getForecastBtn)).

(** The button is locked exactly while the loading indicator is shown. *)
Definition single_flight (d : Document) : Prop :=
  (visible (d loadingDiv) ∧ locked d) ∨ (¬ visible (d loadingDiv) ∧ ready d).

(** The position is found and the three requests of the run succeed. *)
Definition all_succeed (w : World) : Prop :=
  ∃ position reading place scent,
    geolocation w = Some (Located position)
    ∧ getWeatherData w (latitude (coords position)) (longitude (coords position))
      = Fulfilled reading
    ∧ getCityName w (latitude (coords position)) (longitude (coords position))
      = Fulfilled place
    ∧ getFragranceFromAI w reading = Fulfilled scent.

(** The properties the script can read off a parsed value other than [null]:
    those of an object, none of any other value. *)
Definition members (v : Parsed) : Fragrance :=
  match v with
  | Object o => o
  | _ => ∅
  end.


(** The six ways through the click handler, each with the run it leaves. *)
Inductive Path (w : World) (d : Document) : Run → Prop :=
  | path_unsupported :
      geolocation w = None →
      Path w d
        {| frames := [showError "Geolocation is not supported by your browser." d];
           console := [] |}
  | path_not_located error :
      geolocation w = Some (NotLocated error) →
      let d0 := showLoading "Getting your location..." d in
      Path w d {| frames := d0 :: frames (onPositionError error d0); console := [] |}
  | path_lookup_rejected position error :
      geolocation w = Some (Located position) →
      Promise_all (geocode_settles_first w)
        (getWeatherData w (latitude (coords position)) (longitude (coords position)))
        (getCityName w (latitude (coords position)) (longitude (coords position)))
      = Rejected error →
      let d0 := showLoading "Getting your location..." d in
      let d1 := showLoading "Fetching weather data..." d0 in
      Path w d {| frames := [d0; d1; caught error d1]; console := [error] |}
  | path_fragrance_rejected position reading place error :
      geolocation w = Some (Located position) →
      getWeatherData w (latitude (coords position)) (longitude (coords position))
      = Fulfilled reading →
      getCityName w (latitude (coords position)) (longitude (coords position))
      = Fulfilled place →
      getFragranceFromAI w reading = Rejected error →
      let d0 := showLoading "Getting your location..." d in
      let d1 := showLoading "Fetching weather data..." d0 in
      let d2 := showLoading "Creating your fragrance profile..." d1 in
      Path w d {| frames := [d0; d1; d2; caught error d2]; console := [error] |}
  | path_fulfilled position reading place scent :
      geolocation w = Some (Located position) →
      getWeatherData w (latitude (coords position)) (longitude (coords position))
      = Fulfilled reading →
      getCityName w (latitude (coords position)) (longitude (coords position))
      = Fulfilled place →
      getFragranceFromAI w reading = Fulfilled scent →
      scent ≠ Null →
      let d0 := showLoading "Getting your location..." d in
      let d1 := showLoading "Fetching weather data..." d0 in
      let d2 := showLoading "Creating your fragrance profile..." d1 in
      Path w d
        {| frames :=
             [d0; d1; d2; hideLoading d2;
              after (updateUI {| weather := reading; fragrance := scent; city := place |}
                       (hideLoading d2))];
           console := [] |}
  | path_update_thrown position reading place :
      geolocation w = Some (Located position) →
      getWeatherData w (latitude (coords position)) (longitude (coords position))
      = Fulfilled reading →
      getCityName w (latitude (coords position)) (longitude (coords position))
      = Fulfilled place →
      getFragranceFromAI w reading = Fulfilled Null →
      let d0 := showLoading "Getting your location..." d in
      let d1 := showLoading "Fetching weather data..." d0 in
      let d2 := showLoading "Creating your fragrance profile..." d1 in
      let d3 := after (updateUI {| weather := reading; fragrance := Null; city := place |}
                         (hideLoading d2)) in
      Path w d
        {| frames := [d0; d1; d2; hideLoading d2; d3; caught (read_of_null "scents") d3];
           console := [read_of_null "scents"] |}.

(** The texts of the loading indicator in the frames that show it. *)
Definition progress (run : Run) : list string :=
  (λ page : Document, textContent (page loadingMessage))
    <$> filter (λ page : Document, visible (page loadingDiv)) (frames run).

(** The model's text is [null]; the rest as in the end-to-end scenario. *)
Definition null_fragrance : World := with_model (respond 200 (generated "null")).

(** The model answers with an object without properties, or with [true]. *)
Definition empty_fragrance : World := with_model (respond 200 (generated "{}")).

Definition true_fragrance : World := with_model (respond 200 (generated "true")).



(** * Properties *)

Example json_parse_example :
  Json.parse (json_object [("mood", "Cozy"); ("scents", "Amber & Vanilla")])
  = Fulfilled (Object (<["scents" := "Amber & Vanilla"]> (<["mood" := "Cozy"]> ∅))).
Proof. vm_compute. reflexivity. Qed.

Example json_parse_null : Json.parse " null" = Fulfilled Null.
Proof. vm_compute. reflexivity. Qed.

(** ** Occurrences in a string *)

Lemma startsWith_spec (t s : string) :
  startsWith t s = true ↔ ∃ post, t = s ++ post.
Proof.
  revert t. induction s as [|c s IH]; intros t; simpl.
  - split; [intros _; by exists t | done].
  - destruct t as [|c' t].
    + split; [done | intros [post Hpost]; discriminate].
    + rewrite andb_true_iff, Ascii.eqb_eq, IH. split.
      * intros [-> [post ->]]. by exists post.
      * intros [post [= -> ->]]. split; [done | by exists post].
Qed.

Lemma includes_spec (t s : string) :
  includes t s = true ↔ ∃ pre post, t = pre ++ s ++ post.
Proof.
  induction t as [|c t IH].
  - unfold includes. rewrite orb_false_r, startsWith_spec. split.
    + intros [post ->]. by exists EmptyString, post.
    + intros [[|c pre] [post Hpost]]; [by exists post | discriminate].
  - cbn [includes]. rewrite orb_true_iff, startsWith_spec, IH. split.
    + intros [[post ->] | (pre & post & ->)].
      * by exists EmptyString, post.
      * by exists (String c pre), post.
    + intros [[|c' pre] [post Hpost]].
      * left. by exists post.
      * right. injection Hpost as -> ->. by exists pre, post.
Qed.

Lemma includes_suffix (pre s : string) : includes (pre ++ s) s = true.
Proof.
  apply includes_spec. exists pre, EmptyString.
  f_equal. induction s as [|c s IH]; [done|].
  change (String c s = String c (s ++ EmptyString)). by f_equal.
Qed.

(** ** Weather descriptions *)

Lemma descriptions_keys (key : string) :
  is_Some (descriptions !! key) → key ∈ (pretty <$> wmo_codes).
Proof.
  intros [text Hkey]. unfold descriptions in Hkey.
  apply elem_of_list_to_map_2 in Hkey.
  apply (list_elem_of_fmap_2 fst) in Hkey. exact Hkey.
Qed.

Lemma descriptions_unknown (code : Z) :
  code ∉ wmo_codes → descriptions !! pretty code = None.
Proof.
  intros Hcode. apply eq_None_not_Some. intros Hsome.
  apply descriptions_keys, list_elem_of_fmap in Hsome as (known & Heq & Hin).
  apply (inj pretty) in Heq. congruence.
Qed.

(** C2. [getWeatherDescription] is a pure function of the code (it neither
    reads nor writes the page): on each of the 28 WMO codes of the table it
    returns the description written next to that code, and on every other
    integer it returns "Unknown weather". *)
Theorem getWeatherDescription_total :
  Forall (λ entry : Z * string, getWeatherDescription entry.1 = entry.2)
    [ (0, "Clear sky"); (1, "Mainly clear"); (2, "Partly cloudy"); (3, "Overcast");
      (45, "Fog"); (48, "Depositing rime fog");
      (51, "Light drizzle"); (53, "Moderate drizzle"); (55, "Dense drizzle");
      (56, "Light freezing drizzle"); (57, "Dense freezing drizzle");
      (61, "Slight rain"); (63, "Moderate rain"); (65, "Heavy rain");
      (66, "Light freezing rain"); (67, "Heavy freezing rain");
      (71, "Slight snow fall"); (73, "Moderate snow fall"); (75, "Heavy snow fall");
      (77, "Snow grains");
      (80, "Slight rain showers"); (81, "Moderate rain showers");
      (82, "Violent rain showers");
      (85, "Slight snow showers"); (86, "Heavy snow showers");
      (95, "Thunderstorm"); (96, "Thunderstorm with slight hail");
      (99, "Thunderstorm with heavy hail") ]
  ∧ ∀ code : Z, code ∉ wmo_codes → getWeatherDescription code = "Unknown weather".
Proof.
  split.
  - repeat (apply Forall_cons; split; [vm_compute; reflexivity|]). apply Forall_nil. done.
  - intros code Hcode. unfold getWeatherDescription.
    rewrite (descriptions_unknown code Hcode). reflexivity.
Qed.

Lemma getWeatherDescription_total_witness :
  (4 ∉ wmo_codes) ∧ getWeatherDescription 4 = "Unknown weather".
Proof.
  assert (H : 4 ∉ wmo_codes) by (apply (bool_decide_unpack _); vm_compute; exact I).
  split; [exact H | exact (proj2 getWeatherDescription_total 4 H)].
Defined.

(** ** Rounding of the temperature *)

Section Rounding.
Local Open Scope Q_scope.

(** [Math_round x] is within one half of [x], the upper end included. *)
Lemma Math_round_bounds (x : Q) :
  x - (1 # 2) < inject_Z (Math_round x) ∧ inject_Z (Math_round x) <= x + (1 # 2).
Proof.
  unfold Math_round. split.
  - pose proof (Qlt_floor (x + (1 # 2))) as Hlt.
    rewrite inject_Z_plus in Hlt. change (inject_Z 1) with 1 in Hlt. lra.
  - apply Qfloor_le.
Qed.

(** No integer is closer to [x] than [Math_round x]. *)
Lemma Math_round_nearest (x : Q) (n : Z) :
  Qabs (inject_Z (Math_round x) - x) <= Qabs (inject_Z n - x).
Proof.
  destruct (Math_round_bounds x) as [Hlo Hhi].
  set (r := Math_round x) in *.
  assert (Hr : Qabs (inject_Z r - x) <= 1 # 2).
  { apply Qabs_case; intros ?; lra. }
  destruct (Z.lt_trichotomy n r) as [Hlt | [-> | Hgt]].
  - assert (Hn : inject_Z n <= inject_Z r - 1).
    { assert (H : inject_Z n <= inject_Z (r + -1)) by (rewrite <- Zle_Qle; lia).
      rewrite inject_Z_plus in H. change (inject_Z (-1)) with (-1 # 1) in H. lra. }
    eapply Qle_trans; [exact Hr|].
    apply Qabs_case; intros ?; lra.
  - apply Qle_refl.
  - assert (Hn : inject_Z r + 1 <= inject_Z n).
    { assert (H : inject_Z (r + 1) <= inject_Z n) by (rewrite <- Zle_Qle; lia).
      rewrite inject_Z_plus in H. change (inject_Z 1) with 1 in H. lra. }
    eapply Qle_trans; [exact Hr|].
    apply Qabs_case; intros ?; lra.
Qed.

(** At a tie the larger integer is taken. *)
Lemma Math_round_tie (n : Z) : Math_round (inject_Z n + (1 # 2)) = (n + 1)%Z.
Proof.
  unfold Math_round.
  assert (Heq : inject_Z n + (1 # 2) + (1 # 2) == inject_Z (n + 1)).
  { rewrite inject_Z_plus. ring. }
  rewrite Heq. apply Qfloor_Z.
Qed.
End Rounding.

(** C5. When the weather provider answers with a numeric temperature,
    [getWeatherData] returns a reading whose temperature is that number
    rounded by [Math.round]: an integer that no other integer beats in
    distance to the raw value, whatever its sign.  So 14.6 gives 15, 14.4
    gives 14, -14.6 gives -15 and -14.4 gives -14. *)
Theorem getWeatherData_rounds_temperature
    (w : World) (latitude longitude : Q)
    (response : Response OpenMeteo.data) (data : OpenMeteo.data)
    (current : OpenMeteo.current_weather) :
  fetch_weather w latitude longitude = Fulfilled response →
  ok response = true →
  json response = Fulfilled data →
  OpenMeteo.current_weather_ data = Some current →
  (∃ reading,
     getWeatherData w latitude longitude = Fulfilled reading
     ∧ temperature reading = Math_round (OpenMeteo.temperature current)
     ∧ ∀ n : Z,
         (Qabs (inject_Z (temperature reading) - OpenMeteo.temperature current)
          <= Qabs (inject_Z n - OpenMeteo.temperature current))%Q)
  ∧ Math_round (146 # 10) = 15 ∧ Math_round (144 # 10) = 14
  ∧ Math_round (- (146 # 10)) = -15 ∧ Math_round (- (144 # 10)) = -14.
Proof.
  intros Hfetch Hok Hjson Hcurrent. split; [|by vm_compute].
  eexists. split; [|split].
  - unfold getWeatherData. rewrite Hfetch. simpl. rewrite Hok. simpl.
    rewrite Hjson. simpl. rewrite Hcurrent. simpl. reflexivity.
  - reflexivity.
  - intros n. simpl. apply Math_round_nearest.
Qed.

Lemma getWeatherData_rounds_temperature_witness :
  (∃ reading,
     getWeatherData london (515 # 10) (- (12 # 100)) = Fulfilled reading
     ∧ temperature reading = Math_round (123 # 10)
     ∧ ∀ n : Z,
         (Qabs (inject_Z (temperature reading) - (123 # 10))
          <= Qabs (inject_Z n - (123 # 10)))%Q)
  ∧ Math_round (146 # 10) = 15 ∧ Math_round (144 # 10) = 14
  ∧ Math_round (- (146 # 10)) = -15 ∧ Math_round (- (144 # 10)) = -14.
Proof.
  exact (getWeatherData_rounds_temperature london (515 # 10) (- (12 # 100))
           _ rain_12_3 _ eq_refl eq_refl eq_refl eq_refl).
Defined.

(** ** Panels after each UI update *)

Ltac panels :=
  unfold visible, caught, showError, hideLoading, showLoading, updateUI, modify;
  cbn; set_solver.

(** Whether [updateUI] throws is decided by the fragrance alone. *)
Lemma updateUI_thrown (data : Forecast) (d : Document) :
  thrown (updateUI data d)
  = match fragrance data with
    | Null => Some (read_of_null "scents")
    | _ => None
    end.
Proof. destruct data as [reading [|o|] place]; reflexivity. Qed.

Section Panels.
Context (d : Document).

Lemma showLoading_panels message :
  visible (showLoading message d loadingDiv)
  ∧ ¬ visible (showLoading message d errorBox)
  ∧ ¬ visible (showLoading message d resultsDiv).
Proof. panels. Qed.

Lemma hideLoading_panels :
  ¬ visible (hideLoading d loadingDiv)
  ∧ (visible (hideLoading d errorBox) ↔ visible (d errorBox))
  ∧ (visible (hideLoading d resultsDiv) ↔ visible (d resultsDiv)).
Proof. panels. Qed.

Lemma showError_panels message :
  ¬ visible (showError message d loadingDiv)
  ∧ visible (showError message d errorBox)
  ∧ (visible (showError message d resultsDiv) ↔ visible (d resultsDiv)).
Proof. panels. Qed.

Lemma caught_panels error :
  ¬ visible (caught error d loadingDiv)
  ∧ visible (caught error d errorBox)
  ∧ (visible (caught error d resultsDiv) ↔ visible (d resultsDiv)).
Proof. apply showError_panels. Qed.

(** [updateUI] shows the results unless the fragrance is [null]; it leaves
    the other two panels as they are in either case. *)
Lemma updateUI_panels data :
  fragrance data ≠ Null →
  (visible (after (updateUI data d) loadingDiv) ↔ visible (d loadingDiv))
  ∧ (visible (after (updateUI data d) errorBox) ↔ visible (d errorBox))
  ∧ visible (after (updateUI data d) resultsDiv).
Proof. destruct data as [reading [|o|] place]; [done | intros _; panels ..]. Qed.

Lemma updateUI_null_panels reading place :
  let data := {| weather := reading; fragrance := Null; city := place |} in
  (visible (after (updateUI data d) loadingDiv) ↔ visible (d loadingDiv))
  ∧ (visible (after (updateUI data d) errorBox) ↔ visible (d errorBox))
  ∧ (visible (after (updateUI data d) resultsDiv) ↔ visible (d resultsDiv)).
Proof. panels. Qed.

(** At most one panel: no two of them together. *)
Lemma exclusive_pairs :
  exclusive d ↔
    ¬ (visible (d loadingDiv) ∧ visible (d errorBox))
    ∧ ¬ (visible (d loadingDiv) ∧ visible (d resultsDiv))
    ∧ ¬ (visible (d errorBox) ∧ visible (d resultsDiv)).
Proof.
  unfold exclusive, panels_visible. rewrite !filter_cons, filter_nil.
  repeat case_decide; simpl; split; intros; try lia; tauto.
Qed.
End Panels.

(** What is known of the panels of a page built by UI updates, one update
    at a time from the outermost. *)
Ltac panel_facts page :=
  lazymatch page with
  | showLoading ?message ?d => pose proof (showLoading_panels d message); panel_facts d
  | hideLoading ?d => pose proof (hideLoading_panels d); panel_facts d
  | showError ?message ?d => pose proof (showError_panels d message); panel_facts d
  | caught ?error ?d => pose proof (caught_panels d error); panel_facts d
  | after (updateUI {| weather := ?reading; fragrance := Null; city := ?place |} ?d) =>
      pose proof (updateUI_null_panels d reading place); panel_facts d
  | after (updateUI ?data ?d) =>
      let H := fresh in
      pose proof (updateUI_panels d data) as H; cbn [fragrance] in H;
      try specialize (H ltac:(discriminate)); panel_facts d
  | _ => idtac
  end.

Ltac exclusive_page :=
  lazymatch goal with
  | |- exclusive ?page => apply exclusive_pairs; panel_facts page; tauto
  end.

Lemma showLoading_exclusive message d : exclusive (showLoading message d).
Proof. exclusive_page. Qed.

Lemma showError_Failed message d : Failed (showError message d).
Proof. unfold Failed. pose proof (showError_panels d message). tauto. Qed.

(** After [showLoading], an error leaves the error box alone on the page. *)
Lemma caught_after_showLoading error message d :
  let page := caught error (showLoading message d) in
  Failed page ∧ ¬ visible (page resultsDiv).
Proof.
  intros page. unfold Failed.
  pose proof (caught_panels (showLoading message d) error).
  pose proof (showLoading_panels d message). fold page in H. tauto.
Qed.

(** After [showLoading], [hideLoading] and [updateUI] leave the results alone
    on the page. *)
Lemma updateUI_after_showLoading data message d :
  fragrance data ≠ Null →
  Done (after (updateUI data (hideLoading (showLoading message d)))).
Proof.
  intros Hdata. unfold Done.
  panel_facts (after (updateUI data (hideLoading (showLoading message d)))). tauto.
Qed.

(** ** The paths through the click handler *)

Lemma final_last w d run page :
  onClick w d = run → last (frames run) = Some page → final w d = page.
Proof. intros <- Hlast. unfold final. rewrite Hlast. reflexivity. Qed.

Section Paths.
Context (w : World) (d : Document).

Let d0 := showLoading "Getting your location..." d.
Let d1 := showLoading "Fetching weather data..." d0.
Let d2 := showLoading "Creating your fragrance profile..." d1.

Lemma onClick_unsupported :
  geolocation w = None →
  onClick w d =
    {| frames := [showError "Geolocation is not supported by your browser." d];
       console := [] |}.
Proof. intros H. unfold onClick. rewrite H. reflexivity. Qed.

Lemma onClick_not_located error :
  geolocation w = Some (NotLocated error) →
  onClick w d = {| frames := d0 :: frames (onPositionError error d0); console := [] |}.
Proof. intros H. unfold onClick. rewrite H. reflexivity. Qed.

Context (position : GeolocationPosition).
Context (Hposition : geolocation w = Some (Located position)).

Let latitude := latitude (coords position).
Let longitude := longitude (coords position).

(** Weather or place name rejected: the [catch] clause shows the reason. *)
Lemma onClick_lookup_rejected error :
  Promise_all (geocode_settles_first w)
    (getWeatherData w latitude longitude) (getCityName w latitude longitude)
  = Rejected error →
  onClick w d = {| frames := [d0; d1; caught error d1]; console := [error] |}.
Proof.
  intros H. unfold onClick. rewrite Hposition. unfold onPosition.
  fold latitude longitude d0. rewrite H. reflexivity.
Qed.

Context (reading : WeatherReading) (place : string).
Context (Hweather : getWeatherData w latitude longitude = Fulfilled reading).
Context (Hcity : getCityName w latitude longitude = Fulfilled place).

Lemma onClick_fragrance_rejected error :
  getFragranceFromAI w reading = Rejected error →
  onClick w d = {| frames := [d0; d1; d2; caught error d2]; console := [error] |}.
Proof.
  intros H. unfold onClick. rewrite Hposition. unfold onPosition.
  fold latitude longitude d0. rewrite Hweather, Hcity. simpl. fold d1.
  rewrite H. reflexivity.
Qed.

Lemma onClick_fulfilled fragrance :
  getFragranceFromAI w reading = Fulfilled fragrance →
  fragrance ≠ Null →
  onClick w d =
    {| frames :=
         [d0; d1; d2; hideLoading d2;
          after (updateUI {| weather := reading; fragrance := fragrance; city := place |}
                   (hideLoading d2))];
       console := [] |}.
Proof.
  intros H Hfragrance. unfold onClick. rewrite Hposition. unfold onPosition.
  fold latitude longitude d0. rewrite Hweather, Hcity. simpl. fold d1.
  rewrite H. cbv zeta. rewrite updateUI_thrown.
  by destruct fragrance.
Qed.

(** The fragrance is [null]: [updateUI] throws after its first two writes,
    and the [catch] clause shows the reason. *)
Lemma onClick_update_thrown :
  getFragranceFromAI w reading = Fulfilled Null →
  let d3 := after (updateUI {| weather := reading; fragrance := Null; city := place |}
                     (hideLoading d2)) in
  onClick w d =
    {| frames := [d0; d1; d2; hideLoading d2; d3; caught (read_of_null "scents") d3];
       console := [read_of_null "scents"] |}.
Proof.
  intros H d3. unfold onClick. rewrite Hposition. unfold onPosition.
  fold latitude longitude d0. rewrite Hweather, Hcity. simpl. fold d1.
  rewrite H. cbv zeta. rewrite updateUI_thrown. reflexivity.
Qed.
End Paths.

(** ** The end-to-end scenario *)

Lemma london_weather :
  getWeatherData london (515 # 10) (- (12 # 100)) = Fulfilled slight_rain_12.
Proof. vm_compute. reflexivity. Qed.

Lemma london_city :
  getCityName london (515 # 10) (- (12 # 100)) = Fulfilled "London".
Proof. vm_compute. reflexivity. Qed.

Lemma london_fragrance :
  getFragranceFromAI london slight_rain_12 = Fulfilled (Object cozy).
Proof. vm_compute. reflexivity. Qed.

(** C6. With the position (51.5, -0.12), weather code 61 at 12.3 degrees, the
    city "London" and the model's answer
    [{"mood":"Cozy","atmosphere":"Rainy afternoon","scents":"Amber & Vanilla","reason":"Warm scents suit rain."}],
    one click on any page ends with the results shown and the four display
    fields reading "Forecast for London", "Slight rain, 12°C",
    "Amber & Vanilla" and "Mood: Cozy. Warm scents suit rain.". *)
Theorem london_end_to_end (d : Document) :
  let page := final london d in
  textContent (page locationDisplay) = "Forecast for London"
  ∧ textContent (page weatherDisplay) = "Slight rain, 12°C"
  ∧ textContent (page fragranceRecommendation) = "Amber & Vanilla"
  ∧ textContent (page fragranceReason) = "Mood: Cozy. Warm scents suit rain."
  ∧ Done page.
Proof.
  intros page.
  assert (Hobject : Object cozy ≠ Null) by discriminate.
  pose proof (onClick_fulfilled london d london_position eq_refl
                slight_rain_12 "London" london_weather london_city
                (Object cozy) london_fragrance Hobject) as Hrun.
  assert (Hpage : page = after (updateUI
            {| weather := slight_rain_12; fragrance := Object cozy; city := "London" |}
            (hideLoading (showLoading "Creating your fragrance profile..."
              (showLoading "Fetching weather data..."
                (showLoading "Getting your location..." d)))))).
  { apply (final_last _ _ _ _ Hrun). reflexivity. }
  rewrite Hpage. split; [|split; [|split; [|split]]].
  - reflexivity.
  - vm_compute. reflexivity.
  - vm_compute. reflexivity.
  - vm_compute. reflexivity.
  - by apply updateUI_after_showLoading.
Qed.

(** ** The place name *)

(** C9. When the geocoding response is successful and its payload has an
    address object, [getCityName] prefers [city] over [town]: a non-empty
    [city] is returned; otherwise a non-empty [town] is returned; and when
    each of the two is absent or the empty string, the result is
    "your location". *)
Theorem getCityName_precedence
    (w : World) (latitude longitude : Q)
    (response : Response Nominatim.data) (data : Nominatim.data)
    (address : Nominatim.address) :
  fetch_geocode w latitude longitude = Fulfilled response →
  ok response = true →
  json response = Fulfilled data →
  Nominatim.address_ data = Some address →
  let city := Nominatim.city address in
  let town := Nominatim.town address in
  (∀ name, city = Some name → name ≠ EmptyString →
     getCityName w latitude longitude = Fulfilled name)
  ∧ (∀ name, city = None ∨ city = Some EmptyString →
       town = Some name → name ≠ EmptyString →
       getCityName w latitude longitude = Fulfilled name)
  ∧ (city = None ∨ city = Some EmptyString →
     town = None ∨ town = Some EmptyString →
     getCityName w latitude longitude = Fulfilled "your location").
Proof.
  intros Hfetch Hok Hjson Haddress city town.
  assert (Hcall : getCityName w latitude longitude
                  = Fulfilled (or_literal (or_else city town) "your location")).
  { unfold getCityName. rewrite Hfetch. simpl. rewrite Hok. simpl.
    rewrite Hjson. simpl. rewrite Haddress. reflexivity. }
  rewrite Hcall. clear Hcall. repeat split.
  - intros name -> Hname. destruct name; [done | reflexivity].
  - intros name Hcity -> Hname.
    destruct name; [done|]. by destruct Hcity as [-> | ->].
  - intros [-> | ->] [-> | ->]; reflexivity.
Qed.

Lemma getCityName_precedence_witness :
  getCityName (geocoder_with (Some "London") (Some "Windsor")) (515 # 10) (- (12 # 100))
  = Fulfilled "London"
  ∧ getCityName (geocoder_with (Some EmptyString) (Some "Windsor")) (515 # 10) (- (12 # 100))
    = Fulfilled "Windsor"
  ∧ getCityName (geocoder_with None (Some EmptyString)) (515 # 10) (- (12 # 100))
    = Fulfilled "your location".
Proof.
  split; [|split].
  - refine (proj1 (getCityName_precedence
               (geocoder_with (Some "London") (Some "Windsor")) (515 # 10) (- (12 # 100))
               _ _ _ eq_refl eq_refl eq_refl eq_refl) "London" eq_refl _).
    discriminate.
  - refine (proj1 (proj2 (getCityName_precedence
               (geocoder_with (Some EmptyString) (Some "Windsor")) (515 # 10) (- (12 # 100))
               _ _ _ eq_refl eq_refl eq_refl eq_refl)) "Windsor"
              (or_intror eq_refl) eq_refl _).
    discriminate.
  - exact (proj2 (proj2 (getCityName_precedence
              (geocoder_with None (Some EmptyString)) (515 # 10) (- (12 # 100))
              _ _ _ eq_refl eq_refl eq_refl eq_refl))
             (or_introl eq_refl) (or_intror eq_refl)).
Defined.

(** ** What the results show *)

(** C10. [updateUI] never reads the [atmosphere] of the fragrance: two
    fragrance objects that agree on every property but [atmosphere] give,
    with the same weather and city on the same page, the same page; the four
    display fields in particular read the same. *)
Theorem updateUI_ignores_atmosphere
    (reading : WeatherReading) (place : string) (f1 f2 : Fragrance) (d : Document) :
  (∀ key : string, key ≠ "atmosphere" → f1 !! key = f2 !! key) →
  ∀ i : Id,
    after (updateUI {| weather := reading; fragrance := Object f1; city := place |} d) i
    = after (updateUI {| weather := reading; fragrance := Object f2; city := place |} d) i.
Proof.
  intros Hsame i. unfold updateUI. cbn [fragrance property after].
  rewrite (Hsame "scents"), (Hsame "mood"), (Hsame "reason") by done.
  reflexivity.
Qed.

Lemma updateUI_ignores_atmosphere_witness :
  (∀ key : string, key ≠ "atmosphere" →
     cozy !! key = <["atmosphere" := "Sunny morning"]> cozy !! key)
  ∧ after (updateUI {| weather := slight_rain_12; fragrance := Object cozy;
                       city := "London" |}
             idle_page) fragranceReason
    = after (updateUI {| weather := slight_rain_12;
                         fragrance := Object (<["atmosphere" := "Sunny morning"]> cozy);
                         city := "London" |}
               idle_page) fragranceReason.
Proof.
  assert (H : ∀ key : string, key ≠ "atmosphere" →
                cozy !! key = <["atmosphere" := "Sunny morning"]> cozy !! key).
  { intros key Hkey. by rewrite lookup_insert_ne. }
  split; [exact H|].
  exact (updateUI_ignores_atmosphere slight_rain_12 "London" cozy _ idle_page H
           fragranceReason).
Defined.

(** ** Geolocation failures *)

(** C7. A browser without geolocation, a denied permission and any other
    geolocation error each end the click with the error box shown, and the
    three messages in it differ from one another. *)
Theorem geolocation_messages_distinct
    (d : Document) (w_absent w_denied w_other : World)
    (denied other : GeolocationPositionError) :
  geolocation w_absent = None →
  geolocation w_denied = Some (NotLocated denied) →
  code denied = PERMISSION_DENIED →
  geolocation w_other = Some (NotLocated other) →
  code other ≠ PERMISSION_DENIED →
  let shown w := textContent (final w d errorMessage) in
  (Failed (final w_absent d) ∧ Failed (final w_denied d) ∧ Failed (final w_other d))
  ∧ shown w_absent = "Geolocation is not supported by your browser."
  ∧ shown w_denied
    = "Location access was denied. Please enable it in your browser settings."
  ∧ shown w_other = "Could not get your location. Please allow location access."
  ∧ shown w_absent ≠ shown w_denied
  ∧ shown w_absent ≠ shown w_other
  ∧ shown w_denied ≠ shown w_other.
Proof.
  intros Habsent Hdenied Hcode Hother Hcode' shown.
  assert (Ha : final w_absent d
               = showError "Geolocation is not supported by your browser." d).
  { eapply final_last; [by apply onClick_unsupported | reflexivity]. }
  assert (Hd : final w_denied d
               = showError
                   "Location access was denied. Please enable it in your browser settings."
                   (showLoading "Getting your location..." d)).
  { eapply final_last; [by apply onClick_not_located|].
    unfold onPositionError. rewrite decide_True by done. reflexivity. }
  assert (Ho : final w_other d
               = showError "Could not get your location. Please allow location access."
                   (showLoading "Getting your location..." d)).
  { eapply final_last; [by apply onClick_not_located|].
    unfold onPositionError. rewrite decide_False by done. reflexivity. }
  unfold shown. rewrite Ha, Hd, Ho.
  split; [|repeat split; done].
  repeat split; apply showError_Failed.
Qed.

Lemma geolocation_messages_distinct_witness :
  let shown w := textContent (final w idle_page errorMessage) in
  (Failed (final without_geolocation idle_page)
   ∧ Failed (final (position_error 1) idle_page)
   ∧ Failed (final (position_error 3) idle_page))
  ∧ shown without_geolocation = "Geolocation is not supported by your browser."
  ∧ shown (position_error 1)
    = "Location access was denied. Please enable it in your browser settings."
  ∧ shown (position_error 3)
    = "Could not get your location. Please allow location access."
  ∧ shown without_geolocation ≠ shown (position_error 1)
  ∧ shown without_geolocation ≠ shown (position_error 3)
  ∧ shown (position_error 1) ≠ shown (position_error 3).
Proof.
  refine (geolocation_messages_distinct idle_page
            without_geolocation (position_error 1) (position_error 3)
            {| code := 1 |} {| code := 3 |} eq_refl eq_refl eq_refl eq_refl _).
  unfold PERMISSION_DENIED. simpl. lia.
Defined.

(** ** Weather failures *)

(** C3. When the weather provider answers with an unsuccessful status,
    [getWeatherData] fails, the click ends with the error box shown, and no
    frame of the run has the results on the page, whatever the geocoding
    request does. *)
Theorem weather_failure_is_fatal
    (w : World) (d : Document) (position : GeolocationPosition)
    (response : Response OpenMeteo.data) :
  geolocation w = Some (Located position) →
  fetch_weather w (latitude (coords position)) (longitude (coords position))
  = Fulfilled response →
  ok response = false →
  getWeatherData w (latitude (coords position)) (longitude (coords position))
  = Rejected (throw Error "Could not fetch weather data.")
  ∧ Failed (final w d)
  ∧ Forall (λ page, ¬ visible (page resultsDiv)) (frames (onClick w d)).
Proof.
  intros Hposition Hfetch Hok.
  assert (Hweather :
    getWeatherData w (latitude (coords position)) (longitude (coords position))
    = Rejected (throw Error "Could not fetch weather data.")).
  { unfold getWeatherData. rewrite Hfetch. simpl. rewrite Hok. reflexivity. }
  split; [exact Hweather|].
  assert (Hall : ∃ error,
    Promise_all (geocode_settles_first w)
      (getWeatherData w (latitude (coords position)) (longitude (coords position)))
      (getCityName w (latitude (coords position)) (longitude (coords position)))
    = Rejected error).
  { rewrite Hweather. unfold Promise_all.
    destruct (getCityName w _ _); eauto. }
  destruct Hall as [error Hall].
  pose proof (onClick_lookup_rejected w d position Hposition error Hall) as Hrun.
  split.
  - erewrite final_last; [|exact Hrun|reflexivity].
    apply caught_after_showLoading.
  - rewrite Hrun. simpl. repeat apply Forall_cons_2; [..|apply Forall_nil_2].
    + apply showLoading_panels.
    + apply showLoading_panels.
    + apply caught_after_showLoading.
Qed.

Lemma weather_failure_is_fatal_witness :
  getWeatherData weather_unavailable (515 # 10) (- (12 # 100))
  = Rejected (throw Error "Could not fetch weather data.")
  ∧ Failed (final weather_unavailable idle_page)
  ∧ Forall (λ page, ¬ visible (page resultsDiv))
      (frames (onClick weather_unavailable idle_page)).
Proof.
  exact (weather_failure_is_fatal weather_unavailable idle_page london_position _
           eq_refl eq_refl eq_refl).
Defined.

(** ** Failures of the text model *)

(** C4 (as the code has it). When the text model answers with an unsuccessful
    status, [getFragranceFromAI] fails with an error whose message includes
    the status code; when it answers successfully with a body whose
    [candidates] list is absent or empty, it fails with the error
    "Invalid response structure from AI API.". *)
Theorem getFragranceFromAI_failures
    (w : World) (reading : WeatherReading) (response : Response Gemini.result) :
  fetch_ai w (prompt reading) = Fulfilled response →
  (ok response = false →
     ∃ text,
       getFragranceFromAI w reading = Rejected (throw Error text)
       ∧ includes text (pretty (status response)) = true)
  ∧ (ok response = true →
     ∀ result,
       json response = Fulfilled result →
       Gemini.candidates result = None ∨ Gemini.candidates result = Some [] →
       ∃ text,
         getFragranceFromAI w reading = Rejected (throw Error text)
         ∧ text = "Invalid response structure from AI API."
         ∧ includes text "Invalid response structure" = true).
Proof.
  intros Hfetch. split.
  - intros Hok. eexists. split.
    + unfold getFragranceFromAI. rewrite Hfetch. simpl. rewrite Hok. reflexivity.
    + apply includes_suffix.
  - intros Hok result Hjson Hcandidates. eexists. split; [|split; reflexivity].
    unfold getFragranceFromAI. rewrite Hfetch. simpl. rewrite Hok. simpl.
    rewrite Hjson. simpl. by destruct Hcandidates as [-> | ->].
Qed.

(** C4 as stated fails when the first candidate has no content: the call
    fails while reading [parts] of [undefined], with a [TypeError] whose
    message says nothing of the response structure. *)
Lemma candidate_without_content_error :
  getFragranceFromAI candidate_without_content slight_rain_12
  = Rejected (throw TypeError "Cannot read properties of undefined (reading 'parts')")
  ∧ includes "Cannot read properties of undefined (reading 'parts')"
      "nvalid response structure" = false
  ∧ ¬ ∃ text,
        getFragranceFromAI candidate_without_content slight_rain_12
        = Rejected (throw Error text)
        ∧ includes text "Invalid response structure" = true.
Proof.
  assert (Hcall : getFragranceFromAI candidate_without_content slight_rain_12
    = Rejected (throw TypeError "Cannot read properties of undefined (reading 'parts')"))
    by (vm_compute; reflexivity).
  split; [exact Hcall|]. split; [vm_compute; reflexivity|].
  intros (text & Hother & _). rewrite Hcall in Hother. discriminate.
Qed.

Lemma getFragranceFromAI_failures_witness :
  (∃ text,
     getFragranceFromAI model_unavailable slight_rain_12 = Rejected (throw Error text)
     ∧ includes text "503" = true)
  ∧ (∃ text,
       getFragranceFromAI model_without_candidates slight_rain_12
       = Rejected (throw Error text)
       ∧ text = "Invalid response structure from AI API."
       ∧ includes text "Invalid response structure" = true).
Proof.
  split.
  - exact (proj1 (getFragranceFromAI_failures model_unavailable slight_rain_12 _ eq_refl)
             eq_refl).
  - exact (proj2 (getFragranceFromAI_failures model_without_candidates slight_rain_12 _
                    eq_refl)
             eq_refl _ eq_refl (or_intror eq_refl)).
Defined.

(** ** Failures of the geocoder *)





(** ** One panel at a time *)

(** C8 as stated fails: [showError] does not hide the results and [updateUI]
    does not hide the error box, so after [updateUI] and then [showError]
    both are on the page.  The same comes about by clicks alone, when a click
    that ends with results is followed by a click in a browser without
    geolocation. *)
Lemma results_beside_error :
  (reachable results_then_error
   ∧ visible (results_then_error errorBox)
   ∧ visible (results_then_error resultsDiv)
   ∧ ¬ exclusive results_then_error)
  ∧ (let page := final without_geolocation (final london idle_page) in
     page ∈ clicks [london; without_geolocation] idle_page
     ∧ reachable page
     ∧ visible (page errorBox) ∧ visible (page resultsDiv) ∧ ¬ exclusive page).
Proof.
  assert (Hboth : ∀ message data d,
            fragrance data ≠ Null →
            let page := showError message (after (updateUI data d)) in
            visible (page errorBox) ∧ visible (page resultsDiv) ∧ ¬ exclusive page).
  { intros message data d Hdata page.
    pose proof (showError_panels (after (updateUI data d)) message) as (_ & He & Hr).
    pose proof (updateUI_panels d data Hdata) as (_ & _ & Hu).
    fold page in He, Hr. apply Hr in Hu.
    split; [done|]. split; [done|].
    intros Hx%exclusive_pairs. tauto. }
  assert (Hobject : Object cozy ≠ Null) by discriminate.
  split.
  - split; [|by apply Hboth].
    unfold results_then_error. apply reach_showError, reach_updateUI, reach_idle.
  - pose proof (onClick_fulfilled london idle_page london_position eq_refl
                  slight_rain_12 "London" london_weather london_city
                  (Object cozy) london_fragrance Hobject) as Hrun.
    pose proof (final_last _ _ _ _ Hrun eq_refl) as Hfinal.
    pose proof (final_last _ (final london idle_page) _ _
                  (onClick_unsupported without_geolocation _ eq_refl) eq_refl) as Hlast.
    cbv zeta. rewrite Hlast.
    split; [|split].
    + cbn [clicks]. rewrite !elem_of_app. right. left.
      rewrite (onClick_unsupported without_geolocation _ eq_refl). apply list_elem_of_here.
    + apply reach_showError. rewrite Hfinal. apply reach_updateUI.
      apply reach_hideLoading. do 3 apply reach_showLoading. apply reach_idle.
    + rewrite Hfinal. by apply Hboth.
Qed.

Section Exclusive.
Context (w : World) (d : Document).

(** With geolocation in the browser, the click starts with [showLoading],
    and every frame has at most one panel, whatever the page was before. *)
Lemma onClick_supported_exclusive :
  geolocation w ≠ None → Forall exclusive (frames (onClick w d)).
Proof.
  intros Hgeo. unfold onClick.
  destruct (geolocation w) as [[position | error] |]; [| |done]; clear Hgeo.
  - unfold onPosition.
    destruct (Promise_all _ _ _) as [[reading place] | error].
    + destruct (getFragranceFromAI w reading) as [scent | error];
        cbv zeta; rewrite ?updateUI_thrown; cbn [fragrance].
      * destruct scent as [|o|]; cbn [frames].
        all: repeat apply Forall_cons_2; [..|apply Forall_nil_2].
        all: exclusive_page.
      * cbn [frames]. repeat apply Forall_cons_2; [..|apply Forall_nil_2].
        all: exclusive_page.
    + cbn [frames]. repeat apply Forall_cons_2; [..|apply Forall_nil_2].
      all: exclusive_page.
  - unfold onPositionError. cbn [frames].
    repeat apply Forall_cons_2; [..|apply Forall_nil_2].
    all: exclusive_page.
Qed.

(** Without it, the click is one [showError], which leaves the results as
    they were. *)
Lemma onClick_unsupported_exclusive :
  geolocation w = None → ¬ visible (d resultsDiv) →
  Forall exclusive (frames (onClick w d)) ∧ ¬ visible (final w d resultsDiv).
Proof.
  intros Hgeo Hresults.
  rewrite (final_last _ _ _ _ (onClick_unsupported w d Hgeo) eq_refl).
  rewrite (onClick_unsupported w d Hgeo). cbn [frames].
  pose proof (showError_panels d "Geolocation is not supported by your browser.")
    as (Hl & He & Hr).
  split; [|tauto].
  apply Forall_cons_2; [|apply Forall_nil_2]. apply exclusive_pairs. tauto.
Qed.
End Exclusive.

Lemma clicks_supported_exclusive (ws : list World) (d : Document) :
  Forall (λ w, geolocation w ≠ None) ws → Forall exclusive (clicks ws d).
Proof.
  intros Hws. revert d. induction Hws as [|w ws Hw _ IH]; intros d; cbn [clicks].
  - apply Forall_nil_2.
  - apply Forall_app. split; [by apply onClick_supported_exclusive | apply IH].
Qed.

Lemma clicks_unsupported_exclusive (ws : list World) (d : Document) :
  Forall (λ w, geolocation w = None) ws → ¬ visible (d resultsDiv) →
  Forall exclusive (clicks ws d).
Proof.
  intros Hws. revert d. induction Hws as [|w ws Hw _ IH]; intros d Hd; cbn [clicks].
  - apply Forall_nil_2.
  - destruct (onClick_unsupported_exclusive w d Hw Hd) as [Hframes Hfinal].
    apply Forall_app. split; [exact Hframes | by apply IH].
Qed.

(** C8 (as the code has it). Start from a page without the results on it and
    click any number of times, in a browser that either has geolocation at
    every click or lacks it at every click.  Then after every UI update of
    every click at most one of the loading indicator, the error box and the
    results is on the page; in particular the results are never on the page
    together with the error box. *)
Theorem clicks_exclusive (ws : list World) (d : Document) :
  ¬ visible (d resultsDiv) →
  (∀ w w', w ∈ ws → w' ∈ ws → (geolocation w = None ↔ geolocation w' = None)) →
  Forall exclusive (clicks ws d)
  ∧ Forall (λ page, visible (page errorBox) → ¬ visible (page resultsDiv))
      (clicks ws d).
Proof.
  intros Hd Hsame.
  assert (Hx : Forall exclusive (clicks ws d)).
  { destruct ws as [|w0 ws]; [apply Forall_nil_2|].
    destruct (geolocation w0) as [outcome|] eqn:Hw0.
    - apply clicks_supported_exclusive. apply Forall_forall. intros w Hw Hnone.
      apply (Hsame w w0 Hw) in Hnone; [congruence | apply list_elem_of_here].
    - apply clicks_unsupported_exclusive; [|exact Hd].
      apply Forall_forall. intros w Hw.
      by apply (Hsame w0 w); [apply list_elem_of_here|..]. }
  split; [exact Hx|].
  eapply Forall_impl; [exact Hx|].
  intros page Hpage%exclusive_pairs. tauto.
Qed.

Lemma clicks_exclusive_witness :
  Forall exclusive (clicks [london; geocoder_unreachable; london] idle_page)
  ∧ Forall (λ page, visible (page errorBox) → ¬ visible (page resultsDiv))
      (clicks [london; geocoder_unreachable; london] idle_page).
Proof.
  apply clicks_exclusive.
  - apply (bool_decide_unpack _). vm_compute. exact I.
  - intros w w' Hw Hw'.
    assert (Hsome : ∀ v, v ∈ [london; geocoder_unreachable; london] →
                         geolocation v = Some (Located london_position)).
    { intros v Hv. repeat (apply elem_of_cons in Hv as [-> | Hv]; [reflexivity|]).
      by apply elem_of_nil in Hv. }
    rewrite (Hsome w Hw), (Hsome w' Hw'). done.
Defined.

(** * More of the script *)

(** ** Every run takes one of the six paths *)

Lemma Promise_all_fulfilled {A B} (second_first : bool)
    (p : Settled A) (q : Settled B) (a : A) (b : B) :
  Promise_all second_first p q = Fulfilled (a, b) ↔ p = Fulfilled a ∧ q = Fulfilled b.
Proof.
  unfold Promise_all. destruct p, q; split.
  all: try (intros [= -> ->]; done).
  all: try (intros [[= ->] [= ->]]; done).
  all: try discriminate.
  all: intros [Hp Hq]; discriminate.
Qed.

Lemma Promise_all_rejected {A B} (second_first : bool)
    (p : Settled A) (q : Settled B) (e : Exn) :
  Promise_all second_first p q = Rejected e → p = Rejected e ∨ q = Rejected e.
Proof.
  unfold Promise_all. destruct p, q, second_first; intros [= <-]; auto.
Qed.

Lemma onClick_path (w : World) (d : Document) : Path w d (onClick w d).
Proof.
  unfold onClick.
  destruct (geolocation w) as [[position | error] |] eqn:Hgeo.
  - unfold onPosition.
    destruct (Promise_all _ _ _) as [[reading place] | error] eqn:Hall.
    + apply Promise_all_fulfilled in Hall as [Hweather Hcity].
      destruct (getFragranceFromAI w reading) as [scent | error] eqn:Hscent.
      * cbv zeta. rewrite updateUI_thrown. cbn [fragrance].
        destruct scent as [|o|].
        -- by eapply path_update_thrown.
        -- by eapply path_fulfilled.
        -- by eapply path_fulfilled.
      * by eapply path_fragrance_rejected.
    + by eapply path_lookup_rejected.
  - by apply path_not_located.
  - by apply path_unsupported.
Qed.

(** The three calls return exactly on the last two paths, which are the ones
    with five frames or more. *)
Lemma all_succeed_path (w : World) (d : Document) (run : Run) :
  Path w d run → all_succeed w ↔ (5 ≤ length (frames run))%nat.
Proof.
  intros Hpath. split.
  - intros (position & reading & place & scent & Hgeo & Hweather & Hcity & Hscent).
    destruct Hpath as [Hnone | error Herr | position' error Hpos Hall
                      | position' reading' place' error Hpos Hweather' Hcity' Hscent'
                      | position' reading' place' scent' Hpos _ _ _ _
                      | position' reading' place' Hpos _ _ _]; cbn; try lia.
    + congruence.
    + congruence.
    + assert (position' = position) as -> by congruence.
      apply Promise_all_rejected in Hall as [Hall | Hall]; congruence.
    + assert (position' = position) as -> by congruence.
      assert (reading' = reading) as -> by congruence. congruence.
  - intros Hframes.
    destruct Hpath as [Hnone | error Herr | position error Hpos Hall
                      | position reading place error Hpos Hweather Hcity Hscent
                      | position reading place scent Hpos Hweather Hcity Hscent _
                      | position reading place Hpos Hweather Hcity Hscent];
      cbn in Hframes; try lia.
    + by exists position, reading, place, scent.
    + by exists position, reading, place, Null.
Qed.


(** ** The button and the loading indicator *)

Section Button.
Context (d : Document).

Lemma showLoading_locked message : locked (showLoading message d).
Proof. unfold locked, showLoading, modify. cbn. set_solver. Qed.

Lemma hideLoading_ready : ready (hideLoading d).
Proof. unfold ready, hideLoading, modify. cbn. set_solver. Qed.

Lemma showError_ready message : ready (showError message d).
Proof. unfold showError. apply hideLoading_ready. Qed.

Lemma showLoading_single_flight message : single_flight (showLoading message d).
Proof.
  left. split; [apply showLoading_panels | apply showLoading_locked].
Qed.

Lemma hideLoading_single_flight : single_flight (hideLoading d).
Proof.
  right. split; [apply hideLoading_panels | apply hideLoading_ready].
Qed.

Lemma showError_single_flight message : single_flight (showError message d).
Proof.
  right. split; [apply showError_panels | apply showError_ready].
Qed.

(** [updateUI] leaves the button and the loading indicator alone, whether it
    throws or not. *)
Lemma updateUI_button data :
  after (updateUI data d) getForecastBtn = d getForecastBtn
  ∧ after (updateUI data d) loadingDiv = d loadingDiv.
Proof. destruct data as [reading [|o|] place]; split; reflexivity. Qed.

Lemma updateUI_ready data : ready d → ready (after (updateUI data d)).
Proof. unfold ready. by rewrite (proj1 (updateUI_button data)). Qed.

Lemma updateUI_single_flight data :
  single_flight d → single_flight (after (updateUI data d)).
Proof.
  unfold single_flight, locked, ready.
  by rewrite (proj1 (updateUI_button data)), (proj2 (updateUI_button data)).
Qed.
End Button.

Ltac unfold_lets :=
  repeat match goal with x := _ |- _ => subst x end.

Ltac single_flight_page :=
  lazymatch goal with
  | |- single_flight (showLoading _ _) => apply showLoading_single_flight
  | |- single_flight (hideLoading _) => apply hideLoading_single_flight
  | |- single_flight (showError _ _) => apply showError_single_flight
  | |- single_flight (caught _ _) => apply showError_single_flight
  | |- single_flight (after (updateUI _ _)) =>
      apply updateUI_single_flight; single_flight_page
  end.

(** X1. In every frame of every click the button is disabled and dimmed
    exactly when the loading indicator is shown: no second run can be started
    while one is under way. *)
Theorem onClick_single_flight (w : World) (d : Document) :
  Forall single_flight (frames (onClick w d)).
Proof.
  destruct (onClick_path w d); unfold_lets; cbn [frames onPositionError].
  all: repeat apply Forall_cons_2; [..|apply Forall_nil_2].
  all: single_flight_page.
Qed.

(** Case analysis on the path of a click, with the frames written out. *)
Ltac by_path w d :=
  unfold final; destruct (onClick_path w d); unfold_lets;
  cbn [frames console onPositionError last from_option]; unfold id.

Ltac ready_page :=
  lazymatch goal with
  | |- ready (showError _ _) => apply showError_ready
  | |- ready (caught _ _) => apply showError_ready
  | |- ready (hideLoading _) => apply hideLoading_ready
  | |- ready (after (updateUI _ _)) => apply updateUI_ready; ready_page
  end.

Ltac hidden_loading :=
  lazymatch goal with
  | |- ¬ visible (?page loadingDiv) => panel_facts page; tauto
  end.

(** X2. Whatever happens in a click, it ends with the loading indicator
    hidden and the button enabled and not dimmed: the user can try again
    after every outcome. *)
Theorem onClick_ends_ready (w : World) (d : Document) :
  ¬ visible (final w d loadingDiv) ∧ ready (final w d).
Proof.
  by_path w d; (split; [hidden_loading | ready_page]).
Qed.

(** ** How a click ends *)



(** X4. In a browser with geolocation, a run in which the position, the
    weather, the place name or the fragrance fails has the results hidden in
    every one of its frames. *)
Theorem failed_run_hides_results (w : World) (d : Document) :
  geolocation w ≠ None →
  ¬ all_succeed w →
  Forall (λ page, ¬ visible (page resultsDiv)) (frames (onClick w d)).
Proof.
  rewrite (all_succeed_path w d _ (onClick_path w d)).
  by_path w d; intros Hgeo Hfailed.
  - done.
  - repeat apply Forall_cons_2; [..|apply Forall_nil_2].
    all: lazymatch goal with |- ¬ visible (?page _) => panel_facts page; tauto end.
  - repeat apply Forall_cons_2; [..|apply Forall_nil_2].
    all: lazymatch goal with |- ¬ visible (?page _) => panel_facts page; tauto end.
  - repeat apply Forall_cons_2; [..|apply Forall_nil_2].
    all: lazymatch goal with |- ¬ visible (?page _) => panel_facts page; tauto end.
  - destruct Hfailed. cbn. lia.
  - destruct Hfailed. cbn. lia.
Qed.

Lemma failed_run_hides_results_witness :
  Forall (λ page, ¬ visible (page resultsDiv)) (frames (onClick model_unavailable idle_page)).
Proof.
  apply failed_run_hides_results.
  - discriminate.
  - intros (position & reading & place & scent & Hgeo & Hweather & _ & Hscent).
    injection Hgeo as <-.
    vm_compute in Hweather. injection Hweather as <-.
    vm_compute in Hscent. discriminate Hscent.
Defined.

(** X5. A run in which the position is not found, or the weather, the place
    name or the fragrance request fails, leaves the four result texts as they
    were in every one of its frames: what an earlier run wrote stays in the
    (hidden) results.  (A run whose three requests succeed but whose
    fragrance is [null] is not among these: see X20.) *)
Theorem failed_run_keeps_texts (w : World) (d : Document) :
  ¬ all_succeed w →
  Forall (λ page : Document, ∀ i, i ∈ display_fields → page i = d i)
    (frames (onClick w d)).
Proof.
  rewrite (all_succeed_path w d _ (onClick_path w d)).
  by_path w d; intros Hfailed.
  5, 6: destruct Hfailed; cbn; lia.
  all: repeat apply Forall_cons_2; [..|apply Forall_nil_2].
  all: intros i Hi; unfold display_fields in Hi.
  all: repeat (apply elem_of_cons in Hi as [-> | Hi]; [reflexivity|]).
  all: by apply elem_of_nil in Hi.
Qed.

Lemma failed_run_keeps_texts_witness :
  Forall (λ page : Document, ∀ i, i ∈ display_fields → page i = final london idle_page i)
    (frames (onClick weather_unavailable (final london idle_page))).
Proof.
  apply failed_run_keeps_texts.
  intros (position & reading & place & scent & Hgeo & Hweather & _).
  injection Hgeo as <-. vm_compute in Hweather. discriminate Hweather.
Defined.



(** ** The three requests, case by case *)

(** X7. Whenever [getCityName] returns, the name is not empty: the location
    line never reads "Forecast for " with nothing after it. *)
Theorem getCityName_never_empty (w : World) (latitude longitude : Q) (name : string) :
  getCityName w latitude longitude = Fulfilled name → name ≠ EmptyString.
Proof.
  unfold getCityName.
  destruct (fetch_geocode w latitude longitude) as [response|]; [|discriminate].
  cbn. destruct (ok response); cbn; [|by intros [= <-]].
  destruct (json response) as [data|]; [|discriminate].
  cbn. destruct (Nominatim.address_ data) as [address|]; [|discriminate].
  cbn. destruct (Nominatim.city address) as [[|]|], (Nominatim.town address) as [[|]|];
    by intros [= <-].
Qed.

Lemma getCityName_never_empty_witness :
  getCityName london (515 # 10) (- (12 # 100)) = Fulfilled "London"
  ∧ "London" ≠ EmptyString.
Proof.
  split; [exact london_city|].
  exact (getCityName_never_empty london (515 # 10) (- (12 # 100)) "London" london_city).
Defined.

(** X8. [getCityName] fails in exactly three cases, and with these errors:
    the request itself is rejected (its reason is passed on); the response is
    successful but its body is no JSON (the reason of [json()] is passed on);
    or the body is JSON without an address object (a [TypeError] from reading
    [city] of [undefined]). *)
Theorem getCityName_rejected_iff (w : World) (latitude longitude : Q) (e : Exn) :
  getCityName w latitude longitude = Rejected e ↔
    fetch_geocode w latitude longitude = Rejected e
    ∨ ∃ response,
        fetch_geocode w latitude longitude = Fulfilled response
        ∧ ok response = true
        ∧ (json response = Rejected e
           ∨ ∃ data,
               json response = Fulfilled data
               ∧ Nominatim.address_ data = None
               ∧ e = read_of_undefined "city").
Proof.
  unfold getCityName.
  destruct (fetch_geocode w latitude longitude) as [response|e0]; cbn.
  2: { split; [intros [= <-]; by left|].
       intros [? | (r & ? & _)]; congruence. }
  destruct (ok response) eqn:Hok; cbn.
  2: { split; [discriminate|]. intros [? | (r & ? & ? & _)]; congruence. }
  destruct (json response) as [data|e1] eqn:Hjson; cbn.
  2: { split; [intros [= <-]; eauto 10|].
       intros [? | (r & ? & _ & [? | (data' & ? & _)])]; congruence. }
  destruct (Nominatim.address_ data) as [address|] eqn:Haddress; cbn.
  - split; [discriminate|].
    intros [? | (r & ? & _ & [? | (data' & ? & ? & _)])]; congruence.
  - split; [intros [= <-]; eauto 10|].
    intros [? | (r & ? & _ & [? | (data' & _ & _ & ->)])];
      first [reflexivity | congruence].
Qed.

(** X9. [getWeatherData] fails in exactly four cases, and with these errors:
    the request itself is rejected (its reason is passed on); the response is
    unsuccessful (the error "Could not fetch weather data."); the body is no
    JSON (the reason of [json()] is passed on); or the body has no
    [current_weather] (a [TypeError] from reading [temperature] of
    [undefined]). *)
Theorem getWeatherData_rejected_iff (w : World) (latitude longitude : Q) (e : Exn) :
  getWeatherData w latitude longitude = Rejected e ↔
    fetch_weather w latitude longitude = Rejected e
    ∨ ∃ response,
        fetch_weather w latitude longitude = Fulfilled response
        ∧ ((ok response = false ∧ e = throw Error "Could not fetch weather data.")
           ∨ (ok response = true
              ∧ (json response = Rejected e
                 ∨ ∃ data,
                     json response = Fulfilled data
                     ∧ OpenMeteo.current_weather_ data = None
                     ∧ e = read_of_undefined "temperature"))).
Proof.
  unfold getWeatherData.
  destruct (fetch_weather w latitude longitude) as [response|e0]; cbn.
  2: { split; [intros [= <-]; by left|].
       intros [? | (r & ? & _)]; congruence. }
  destruct (ok response) eqn:Hok; cbn.
  2: { split; [intros [= <-]; eauto 10|].
       intros [? | (r & ? & [[_ ->] | [? _]])]; first [reflexivity | congruence]. }
  destruct (json response) as [data|e1] eqn:Hjson; cbn.
  2: { split; [intros [= <-]; eauto 10|].
       intros [? | (r & ? & [[? _] | [_ [? | (data' & ? & _)]]])]; congruence. }
  destruct (OpenMeteo.current_weather_ data) as [current|] eqn:Hcurrent; cbn.
  - split; [discriminate|].
    intros [? | (r & ? & [[? _] | [_ [? | (data' & ? & ? & _)]]])]; congruence.
  - split; [intros [= <-]; eauto 10|].
    intros [? | (r & ? & [[? _] | [_ [? | (data' & _ & _ & ->)]]])];
      first [reflexivity | congruence].
Qed.

(** X10. When the model's response is successful and its first candidate has
    content whose first part carries a text, [getFragranceFromAI] is
    [JSON.parse] of that text: further candidates and parts are ignored, and
    a parse error is passed on as it is. *)
Theorem getFragranceFromAI_parses_first_text
    (w : World) (reading : WeatherReading)
    (response : Response Gemini.result) (result : Gemini.result)
    (c : Gemini.candidate) (cs : list Gemini.candidate)
    (ct : Gemini.content) (p : Gemini.part) (ps : list Gemini.part) (t : string) :
  fetch_ai w (prompt reading) = Fulfilled response →
  ok response = true →
  json response = Fulfilled result →
  Gemini.candidates result = Some (c :: cs) →
  Gemini.content_ c = Some ct →
  Gemini.parts ct = Some (p :: ps) →
  Gemini.text p = Some t →
  getFragranceFromAI w reading = JSON_parse w t.
Proof.
  intros Hfetch Hok Hjson Hcandidates Hcontent Hparts Htext.
  unfold getFragranceFromAI. rewrite Hfetch. cbn. rewrite Hok. cbn.
  rewrite Hjson. cbn. rewrite Hcandidates.
  unfold jsonText. cbn. rewrite Hcontent. cbn. rewrite Hparts. cbn.
  rewrite Htext. reflexivity.
Qed.

Lemma getFragranceFromAI_parses_first_text_witness :
  getFragranceFromAI london slight_rain_12 = Json.parse cozy_text.
Proof.
  exact (getFragranceFromAI_parses_first_text london slight_rain_12
           {| status := 200; json := Fulfilled (generated cozy_text) |}
           (generated cozy_text) _ [] _ _ [] cozy_text
           eq_refl eq_refl eq_refl eq_refl eq_refl eq_refl eq_refl).
Defined.

(** X11. A fragrance is only ever produced by [JSON.parse] on the first part
    of the first candidate of a successful response: if [getFragranceFromAI]
    returns, the response was successful, its body had a first candidate with
    content and a first part, and the fragrance is the parse of that part's
    text. *)
Theorem getFragranceFromAI_fulfilled_inv
    (w : World) (reading : WeatherReading) (scent : Parsed) :
  getFragranceFromAI w reading = Fulfilled scent →
  ∃ response result c cs ct p ps,
    fetch_ai w (prompt reading) = Fulfilled response
    ∧ ok response = true
    ∧ json response = Fulfilled result
    ∧ Gemini.candidates result = Some (c :: cs)
    ∧ Gemini.content_ c = Some ct
    ∧ Gemini.parts ct = Some (p :: ps)
    ∧ JSON_parse w (interpolate (Gemini.text p)) = Fulfilled scent.
Proof.
  unfold getFragranceFromAI.
  destruct (fetch_ai w (prompt reading)) as [response|]; [|discriminate].
  cbn. destruct (ok response) eqn:Hok; cbn; [|discriminate].
  destruct (json response) as [result|] eqn:Hjson; [|discriminate].
  cbn. destruct (Gemini.candidates result) as [[|c cs]|] eqn:Hcandidates;
    [discriminate| |discriminate].
  unfold jsonText. cbn.
  destruct (Gemini.content_ c) as [ct|] eqn:Hcontent; [|discriminate].
  cbn. destruct (Gemini.parts ct) as [[|p ps]|] eqn:Hparts;
    [discriminate| |discriminate].
  cbn. intros Hparse. exists response, result, c, cs, ct, p, ps. done.
Qed.

Lemma getFragranceFromAI_fulfilled_inv_witness :
  ∃ response result c cs ct p ps,
    fetch_ai london (prompt slight_rain_12) = Fulfilled response
    ∧ ok response = true
    ∧ json response = Fulfilled result
    ∧ Gemini.candidates result = Some (c :: cs)
    ∧ Gemini.content_ c = Some ct
    ∧ Gemini.parts ct = Some (p :: ps)
    ∧ JSON_parse london (interpolate (Gemini.text p)) = Fulfilled (Object cozy).
Proof.
  exact (getFragranceFromAI_fulfilled_inv london slight_rain_12 (Object cozy)
           london_fragrance).
Defined.

(** ** What a run does not depend on *)

Lemma getWeatherData_ext (w w' : World) (latitude longitude : Q) :
  fetch_weather w' = fetch_weather w →
  getWeatherData w' latitude longitude = getWeatherData w latitude longitude.
Proof. intros Hfetch. unfold getWeatherData. by rewrite Hfetch. Qed.

Lemma getCityName_ext (w w' : World) (latitude longitude : Q) :
  fetch_geocode w' = fetch_geocode w →
  getCityName w' latitude longitude = getCityName w latitude longitude.
Proof. intros Hfetch. unfold getCityName. by rewrite Hfetch. Qed.

(** X12. Without a position the run does not depend on the providers: when
    the browser has no geolocation or reports an error, the frames and the
    console of the run are the same whatever the three providers and
    [JSON.parse] would have answered. *)
Theorem no_position_ignores_providers (w w' : World) (d : Document) :
  geolocation w' = geolocation w →
  (∀ position, geolocation w ≠ Some (Located position)) →
  onClick w' d = onClick w d.
Proof.
  intros Hgeo Hnone. unfold onClick. rewrite Hgeo.
  destruct (geolocation w) as [[position | error] |]; [|reflexivity..].
  by destruct (Hnone position).
Qed.

Lemma no_position_ignores_providers_witness :
  onClick
    (scenario (Some (NotLocated {| code := 1 |}))
       (respond 200 rain_12_3) (respond 200 (place (Some "London") None))
       (respond 200 (generated cozy_text)))
    idle_page
  = onClick (position_error 1) idle_page.
Proof.
  apply no_position_ignores_providers; [reflexivity | discriminate].
Defined.

(** X13. When the weather or the place name fails, the run does not depend on
    the text model: its frames and its console are the same whatever the
    model and [JSON.parse] would have answered. *)
Theorem lookup_failure_ignores_model (w w' : World) (d : Document) :
  geolocation w' = geolocation w →
  fetch_weather w' = fetch_weather w →
  fetch_geocode w' = fetch_geocode w →
  geocode_settles_first w' = geocode_settles_first w →
  (∀ position reading place,
     geolocation w = Some (Located position) →
     getWeatherData w (latitude (coords position)) (longitude (coords position))
     = Fulfilled reading →
     getCityName w (latitude (coords position)) (longitude (coords position))
     = Fulfilled place →
     False) →
  onClick w' d = onClick w d.
Proof.
  intros Hgeo Hweather Hgeocode Horder Hfails. unfold onClick. rewrite Hgeo.
  destruct (geolocation w) as [[position | error] |] eqn:Hposition; [|reflexivity..].
  unfold onPosition.
  rewrite Horder, (getWeatherData_ext w w' _ _ Hweather),
    (getCityName_ext w w' _ _ Hgeocode).
  destruct (Promise_all _ _ _) as [[reading place] | error] eqn:Hall; [|reflexivity].
  apply Promise_all_fulfilled in Hall as [Hreading Hplace].
  destruct (Hfails position reading place eq_refl Hreading Hplace).
Qed.

Lemma lookup_failure_ignores_model_witness :
  onClick
    (scenario (Some (Located london_position))
       (respond 200 rain_12_3) (Rejected network_error) (respond_plain 503))
    idle_page
  = onClick geocoder_unreachable idle_page.
Proof.
  apply lookup_failure_ignores_model; try reflexivity.
  intros position reading place [= <-] _ Hplace.
  vm_compute in Hplace. discriminate Hplace.
Defined.

(** ** The progress messages *)

Ltac keep_frame :=
  rewrite filter_cons_True
    by lazymatch goal with |- visible (?page _) => panel_facts page; tauto end.

Ltac drop_frame :=
  rewrite filter_cons_False
    by lazymatch goal with |- ¬ visible (?page _) => panel_facts page; tauto end.

(** X14. The loading indicator announces each stage before its request is
    made.  The frames of a run that show the indicator carry, in order:
    nothing in a browser without geolocation; "Getting your location..."
    when the position is not found; that and "Fetching weather data..." when
    the weather or the place name fails; and these two and "Creating your
    fragrance profile..." once both have arrived, whether the fragrance then
    succeeds or not. *)
Theorem progress_messages (w : World) (d : Document) :
  progress (onClick w d) =
    match geolocation w with
    | None => []
    | Some (NotLocated _) => ["Getting your location..."]
    | Some (Located position) =>
        match getWeatherData w (latitude (coords position)) (longitude (coords position)),
              getCityName w (latitude (coords position)) (longitude (coords position))
        with
        | Fulfilled _, Fulfilled _ =>
            ["Getting your location..."; "Fetching weather data...";
             "Creating your fragrance profile..."]
        | _, _ => ["Getting your location..."; "Fetching weather data..."]
        end
    end.
Proof.
  unfold onClick, progress.
  destruct (geolocation w) as [[position | error] |].
  - unfold onPosition.
    destruct (getWeatherData w _ _) as [reading | e1],
             (getCityName w _ _) as [place | e2]; cbn [Promise_all].
    1: destruct (getFragranceFromAI w reading) as [[|o|] | e3];
         cbv zeta; rewrite ?updateUI_thrown; cbn [fragrance].
    all: cbn [frames]; repeat first [keep_frame | drop_frame]; rewrite filter_nil.
    all: reflexivity.
  - unfold onPositionError. cbn [frames].
    repeat first [keep_frame | drop_frame]. rewrite filter_nil. reflexivity.
  - cbn [frames]. repeat first [keep_frame | drop_frame]. rewrite filter_nil.
    reflexivity.
Qed.

(** ** The prompt *)

Lemma string_app_assoc (a b c : string) : (a ++ b) ++ c = a ++ (b ++ c).
Proof.
  induction a as [|x a IH]; [reflexivity|].
  change (String x ((a ++ b) ++ c) = String x (a ++ (b ++ c))). by f_equal.
Qed.

Lemma includes_middle (pre s post : string) : includes (pre ++ s ++ post) s = true.
Proof. apply includes_spec. by exists pre, post. Qed.

Lemma includes_trans (t s x : string) :
  includes t s = true → includes s x = true → includes t x = true.
Proof.
  rewrite !includes_spec. intros (pre & post & ->) (pre' & post' & ->).
  exists (pre ++ pre'), (post' ++ post). by rewrite !string_app_assoc.
Qed.

(** Every line of a template is part of the text. *)
Lemma unlines_includes (ls : list string) (l : string) :
  l ∈ ls → includes (unlines ls) l = true.
Proof.
  induction ls as [|l0 ls IH]; intros Hl; [by apply elem_of_nil in Hl|].
  apply elem_of_cons in Hl as [-> | Hl].
  - destruct ls as [|l1 ls].
    + apply (includes_suffix EmptyString).
    + apply (includes_middle EmptyString).
  - destruct ls as [|l1 ls]; [by apply elem_of_nil in Hl|].
    apply includes_trans with (unlines (l1 :: ls)); [|by apply IH].
    change (unlines (l0 :: l1 :: ls)) with (l0 ++ newline ++ unlines (l1 :: ls)).
    rewrite <- string_app_assoc. apply includes_suffix.
Qed.

(** X15. The prompt sent to the text model carries the weather it is asked
    about, as "Weather: " followed by the description and "Temperature: "
    followed by the rounded temperature and "°C", and names the four
    properties it wants back, each in double quotes. *)
Theorem prompt_mentions_weather (reading : WeatherReading) :
  includes (prompt reading) ("Weather: " ++ description reading) = true
  ∧ includes (prompt reading)
      ("Temperature: " ++ pretty (temperature reading) ++ "°C") = true
  ∧ Forall (λ key, includes (prompt reading) (quoted key) = true)
      ["mood"; "atmosphere"; "scents"; "reason"].
Proof.
  assert (Hline : ∀ line x,
            line ∈ [ "        Weather: " ++ description reading;
                     "        Temperature: " ++ pretty (temperature reading) ++ "°C";
                     "          " ++ quoted "mood" ++ ": "
                       ++ quoted "A short description of the mood or feeling" ++ ",";
                     "          " ++ quoted "atmosphere" ++ ": "
                       ++ quoted "A description of the overall atmosphere" ++ ",";
                     "          " ++ quoted "scents" ++ ": "
                       ++ quoted "Key scent notes, e.g., 'Citrus & Bergamot'" ++ ",";
                     "          " ++ quoted "reason" ++ ": "
                       ++ quoted "A brief explanation for the recommendation." ] →
            includes line x = true → includes (prompt reading) x = true).
  { intros line x Hline Hx. apply includes_trans with line; [|exact Hx].
    apply unlines_includes.
    repeat (apply elem_of_cons in Hline as [-> | Hline];
            [unfold prompt; set_solver|]).
    by apply elem_of_nil in Hline. }
  split; [|split].
  - eapply Hline; [apply list_elem_of_here|].
    apply (includes_suffix "        ").
  - eapply Hline; [apply list_elem_of_further, list_elem_of_here|].
    apply (includes_suffix "        ").
  - repeat apply Forall_cons_2; [..|apply Forall_nil_2].
    + eapply Hline; [do 2 apply list_elem_of_further; apply list_elem_of_here|].
      apply (includes_middle "          ").
    + eapply Hline; [do 3 apply list_elem_of_further; apply list_elem_of_here|].
      apply (includes_middle "          ").
    + eapply Hline; [do 4 apply list_elem_of_further; apply list_elem_of_here|].
      apply (includes_middle "          ").
    + eapply Hline; [do 5 apply list_elem_of_further; apply list_elem_of_here|].
      apply (includes_middle "          ").
Qed.

(** ** How the UI updates compose *)

(** [showLoading] and [hideLoading], element by element. *)
Lemma showLoading_at (message : string) (d : Document) (i : Id) :
  showLoading message d i =
    match i with
    | loadingMessage => set_textContent message (d i)
    | loadingDiv => classList_remove "hidden" (d i)
    | resultsDiv | errorBox => classList_add "hidden" (d i)
    | getForecastBtn =>
        classList_add "cursor-not-allowed"
          (classList_add "opacity-50" (set_disabled true (d i)))
    | _ => d i
    end.
Proof. destruct i; reflexivity. Qed.

Lemma hideLoading_at (d : Document) (i : Id) :
  hideLoading d i =
    match i with
    | loadingDiv => classList_add "hidden" (d i)
    | getForecastBtn =>
        classList_remove "cursor-not-allowed"
          (classList_remove "opacity-50" (set_disabled false (d i)))
    | _ => d i
    end.
Proof. destruct i; reflexivity. Qed.

(** Equality of two class lists, by cases on the class names they mention. *)
Ltac class_eq :=
  apply set_eq; let x := fresh "x" in
  intros x; set_unfold;
  repeat match goal with
    | |- context [x = ?s] =>
        lazymatch goal with
        | _ : x ≠ s |- _ => fail
        | _ => destruct (decide (x = s)) as [-> | ?]
        end
    end;
  naive_solver.

Ltac element_eq :=
  unfold set_textContent, set_disabled, classList_add, classList_remove;
  cbn [textContent classList disabled]; f_equal; set_solver.

(** X16. A second [showLoading] replaces the first: the page is the same as
    if only the second had been called, so the progress message is always the
    latest one and hiding or dimming twice changes nothing. *)
Theorem showLoading_last_wins (message1 message2 : string) (d : Document) (i : Id) :
  showLoading message2 (showLoading message1 d) i = showLoading message2 d i.
Proof.
  rewrite (showLoading_at message2 (showLoading message1 d)), !showLoading_at.
  destruct i; first [reflexivity | element_eq].
Qed.

(** X17. On a page with the three panels hidden and the button ready,
    [showLoading] followed by [hideLoading] changes nothing but the text of
    the loading message. *)
Theorem loading_cycle_restores (message : string) (d : Document) :
  ¬ visible (d loadingDiv) → ¬ visible (d resultsDiv) → ¬ visible (d errorBox) →
  ready d →
  ∀ i, i ≠ loadingMessage → hideLoading (showLoading message d) i = d i.
Proof.
  unfold visible, ready. intros Hloading Hresults Herror (Hdisabled & Ho & Hc) i Hi.
  apply dec_stable in Hloading, Hresults, Herror.
  rewrite hideLoading_at, showLoading_at.
  destruct i; try done.
  all: lazymatch goal with
       | |- _ = ?page ?i => destruct (page i) as [t c b] eqn:Hi'; rewrite ?Hi' in *
       end.
  all: unfold set_textContent, set_disabled, classList_add, classList_remove.
  all: cbn [textContent classList disabled] in *.
  all: f_equal; try congruence.
  all: class_eq.
Qed.

Lemma loading_cycle_restores_witness :
  Forall (λ i, hideLoading (showLoading "Getting your location..." idle_page) i
               = idle_page i)
    [getForecastBtn; resultsDiv; loadingDiv; errorBox; errorMessage;
     locationDisplay; weatherDisplay; fragranceRecommendation; fragranceReason].
Proof.
  assert (Hhidden : ∀ i, In i [loadingDiv; resultsDiv; errorBox] →
                         ¬ visible (idle_page i)).
  { intros i [<- | [<- | [<- | []]]]; apply (bool_decide_unpack _); vm_compute; exact I. }
  assert (Hready : ready idle_page).
  { repeat split; apply (bool_decide_unpack _); vm_compute; exact I. }
  pose proof (loading_cycle_restores "Getting your location..." idle_page
                (Hhidden loadingDiv (or_introl eq_refl))
                (Hhidden resultsDiv (or_intror (or_introl eq_refl)))
                (Hhidden errorBox (or_intror (or_intror (or_introl eq_refl))))
                Hready) as Hcycle.
  repeat apply Forall_cons_2; [..|apply Forall_nil_2].
  all: apply Hcycle; discriminate.
Defined.

(** ** What a successful run shows *)



(** X19. A fragrance that is not [null] and has no [scents], [mood] and
    [reason] (an object with other properties or with none, or a value that
    is no object, such as [true]) is not an error: the run ends with the
    results shown, the recommendation empty and the reason line reading
    "Mood: undefined. undefined". *)
Theorem empty_fragrance_is_shown
    (w : World) (d : Document) (position : GeolocationPosition)
    (reading : WeatherReading) (place : string) (scent : Parsed) :
  geolocation w = Some (Located position) →
  getWeatherData w (latitude (coords position)) (longitude (coords position))
  = Fulfilled reading →
  getCityName w (latitude (coords position)) (longitude (coords position))
  = Fulfilled place →
  getFragranceFromAI w reading = Fulfilled scent →
  scent ≠ Null →
  members scent !! "scents" = None →
  members scent !! "mood" = None →
  members scent !! "reason" = None →
  Done (final w d)
  ∧ textContent (final w d fragranceRecommendation) = EmptyString
  ∧ textContent (final w d fragranceReason) = "Mood: undefined. undefined"
  ∧ console (onClick w d) = [].
Proof.
  intros Hposition Hreading Hplace Hscent Hobject Hscents Hmood Hreason.
  pose proof (onClick_fulfilled w d position Hposition reading place
                Hreading Hplace scent Hscent Hobject) as Hrun.
  rewrite (final_last _ _ _ _ Hrun eq_refl), Hrun.
  split; [by apply updateUI_after_showLoading|].
  destruct scent as [|o|]; [done|..]; cbn [members] in *.
  - split; [|split; [|reflexivity]].
    + change (default EmptyString (o !! "scents") = EmptyString).
      by rewrite Hscents.
    + change ("Mood: " ++ default "undefined" (o !! "mood") ++ ". "
              ++ default "undefined" (o !! "reason") = "Mood: undefined. undefined").
      by rewrite Hmood, Hreason.
  - repeat split; reflexivity.
Qed.

Lemma empty_fragrance_is_shown_witness :
  (Done (final empty_fragrance idle_page)
   ∧ textContent (final empty_fragrance idle_page fragranceRecommendation) = EmptyString
   ∧ textContent (final empty_fragrance idle_page fragranceReason)
     = "Mood: undefined. undefined"
   ∧ console (onClick empty_fragrance idle_page) = [])
  ∧ (Done (final true_fragrance idle_page)
     ∧ textContent (final true_fragrance idle_page fragranceRecommendation) = EmptyString
     ∧ textContent (final true_fragrance idle_page fragranceReason)
       = "Mood: undefined. undefined"
     ∧ console (onClick true_fragrance idle_page) = []).
Proof.
  split.
  - apply (empty_fragrance_is_shown empty_fragrance idle_page london_position
             slight_rain_12 "London" (Object ∅)).
    1: reflexivity.
    1-3: vm_compute; reflexivity.
    1: discriminate.
    all: apply lookup_empty.
  - apply (empty_fragrance_is_shown true_fragrance idle_page london_position
             slight_rain_12 "London" Other).
    1: reflexivity.
    1-3: vm_compute; reflexivity.
    1: discriminate.
    all: apply lookup_empty.
Defined.

(** ** A fragrance that is [null] *)

(** X20. When the position is found and the three requests succeed but the
    model's text parses to [null], [updateUI] throws on reading [scents]: the
    location and weather lines are written, the recommendation and the
    reason are left as they were, the results stay hidden in every frame of
    the run, and the run ends with the error box showing the [TypeError],
    which is also the one entry on the console. *)
Theorem null_fragrance_fails
    (w : World) (d : Document) (position : GeolocationPosition)
    (reading : WeatherReading) (place : string) :
  geolocation w = Some (Located position) →
  getWeatherData w (latitude (coords position)) (longitude (coords position))
  = Fulfilled reading →
  getCityName w (latitude (coords position)) (longitude (coords position))
  = Fulfilled place →
  getFragranceFromAI w reading = Fulfilled Null →
  console (onClick w d) = [read_of_null "scents"]
  ∧ Failed (final w d)
  ∧ textContent (final w d errorMessage)
    = "Cannot read properties of null (reading 'scents')"
  ∧ textContent (final w d locationDisplay) = "Forecast for " ++ place
  ∧ textContent (final w d weatherDisplay)
    = description reading ++ ", " ++ pretty (temperature reading) ++ "°C"
  ∧ final w d fragranceRecommendation = d fragranceRecommendation
  ∧ final w d fragranceReason = d fragranceReason
  ∧ Forall (λ page, ¬ visible (page resultsDiv)) (frames (onClick w d)).
Proof.
  intros Hposition Hreading Hplace Hscent.
  pose proof (onClick_update_thrown w d position Hposition reading place
                Hreading Hplace Hscent) as Hrun.
  cbv zeta in Hrun.
  rewrite (final_last _ _ _ _ Hrun eq_refl), Hrun. cbn [frames console].
  split; [reflexivity|]. split.
  { unfold Failed.
    lazymatch goal with |- visible (?page _) ∧ _ => panel_facts page; tauto end. }
  do 5 (split; [reflexivity|]).
  repeat apply Forall_cons_2; [..|apply Forall_nil_2].
  all: lazymatch goal with |- ¬ visible (?page _) => panel_facts page; tauto end.
Qed.

Lemma null_fragrance_fails_witness :
  console (onClick null_fragrance idle_page) = [read_of_null "scents"]
  ∧ Failed (final null_fragrance idle_page)
  ∧ textContent (final null_fragrance idle_page errorMessage)
    = "Cannot read properties of null (reading 'scents')"
  ∧ textContent (final null_fragrance idle_page locationDisplay)
    = "Forecast for " ++ "London"
  ∧ textContent (final null_fragrance idle_page weatherDisplay)
    = description slight_rain_12 ++ ", " ++ pretty (temperature slight_rain_12) ++ "°C"
  ∧ final null_fragrance idle_page fragranceRecommendation
    = idle_page fragranceRecommendation
  ∧ final null_fragrance idle_page fragranceReason = idle_page fragranceReason
  ∧ Forall (λ page, ¬ visible (page resultsDiv)) (frames (onClick null_fragrance idle_page)).
Proof.
  apply (null_fragrance_fails null_fragrance idle_page london_position
           slight_rain_12 "London").
  1: reflexivity.
  all: vm_compute; reflexivity.
Defined.
